(** * TechGear Electronics support chatbot: the query-routing workflow

    A shallow embedding of [rag_agent.py] (classifier node, the two terminal
    nodes, the router, the LangGraph wiring and [process_query]) and of
    [rag_chain.py] (the [RAGChain] object with its cached retriever and
    chain), followed by the properties of the workflow.

    Conventions.
    - A Python [str] is a list of Unicode code points ([N]).
    - A Python [dict] with string keys is a [gmap string pyval].
    - Code that can raise returns a [result]; code that reads or writes the
      module-level singletons, an object's attributes or calls a model or
      the vector index runs in the state-and-exception monad [ST].
    - The outside world (the two model clients and the vector index) is a
      family of oracles that see the whole history of events so far, so two
      calls with the same prompt may answer differently. *)

From Stdlib Require Import ZArith NArith List String Ascii.
From stdpp Require Import gmap strings list fin_maps.

Local Open Scope string_scope.
Local Open Scope list_scope.

(** ** Python values *)

(** A [str]: the sequence of its code points. *)
Abbreviation str := (list N).

(** A literal of the source, character by character. *)
Definition lit (s : string) : str :=
  N_of_ascii <$> list_ascii_of_string s.

(** The values the workflow state holds: [str] and [bool] fields. *)
Inductive pyval :=
| VStr (s : str)
| VBool (b : bool).

#[global] Instance pyval_eq_dec : EqDecision pyval.
Proof. solve_decision. Defined.

(** [v == w] on these values: equal only at the same type and content
    (a [bool] never equals a [str]). *)
Definition py_eq (v w : pyval) : bool := bool_decide (v = w).

(** [str(v)], as template substitution renders a value. *)
Definition py_str (v : pyval) : str :=
  match v with
  | VStr s => s
  | VBool true => lit "True"
  | VBool false => lit "False"
  end.

(** [sep.join(parts)]. *)
Fixpoint join (sep : str) (parts : list str) : str :=
  match parts with
  | [] => []
  | [p] => p
  | p :: rest => p ++ sep ++ join sep rest
  end.

(** ** [str.strip] and [str.upper]

    Both are driven by the Unicode character database: the white-space
    property of a code point and its full upper-case mapping (one code point
    may map to several). The two tables are parameters; [ascii_isspace] and
    [ascii_toupper] below are the tables restricted to ASCII. *)

Section StrMethods.
Variable isspace : N -> bool.
Variable toupper : N -> list N.

Fixpoint lstrip (s : str) : str :=
  match s with
  | [] => []
  | c :: rest => if isspace c then lstrip rest else s
  end.

Definition rstrip (s : str) : str := rev (lstrip (rev s)).

Definition strip (s : str) : str := rstrip (lstrip s).

Definition upper (s : str) : str := flat_map toupper s.
End StrMethods.

(** White space below code point 128: tab, line feed, vertical tab, form
    feed, carriage return, the four separators 28 to 31, and space. *)
Definition ascii_isspace (c : N) : bool :=
  ((9 <=? c) && (c <=? 13) || (28 <=? c) && (c <=? 32))%N.

(** Upper-casing below code point 128: [a]..[z] move down by 32; every other
    code point is left as it is. *)
Definition ascii_toupper (c : N) : list N :=
  if ((97 <=? c) && (c <=? 122))%N then [(c - 32)%N] else [c].

(** ** Exceptions and results *)

Inductive exn :=
| KeyError (key : string)
| GraphRecursionError
| InvalidUpdateError (key : string)
| UnknownNode (name : string)
| ExternalError (msg : str).

Inductive result (A : Type) :=
| Ok (a : A)
| Raise (e : exn).
Arguments Ok {A} a.
Arguments Raise {A} e.

(** ** The state-and-exception monad

    A raised exception keeps the state reached so far: attributes already
    assigned and calls already made are not undone. *)

Definition ST (S A : Type) : Type := S -> result A * S.

Definition ret {S A} (a : A) : ST S A := fun s => (Ok a, s).

Definition raise {S A} (e : exn) : ST S A := fun s => (Raise e, s).

Definition bind {S A B} (m : ST S A) (k : A -> ST S B) : ST S B :=
  fun s =>
    match m s with
    | (Ok a, s') => k a s'
    | (Raise e, s') => (Raise e, s')
    end.

Declare Scope st_scope.
Delimit Scope st_scope with st.
Notation "x <- m ;; k" := (bind m (fun x => k))
  (at level 100, m at next level, right associativity) : st_scope.
Notation "m ;;; k" := (bind m (fun _ => k))
  (at level 100, right associativity) : st_scope.
Local Open Scope st_scope.

(** ** The outside world

    What the program does to its collaborators, in the order it does it. *)

(** A stored passage, as the vector index returns it. *)
Record Document := { page_content : str }.

Inductive event :=
| EvNode (name : string)               (* a workflow node starts executing *)
| EvState (state : gmap string pyval)  (* the workflow state after a step *)
| EvClassify (prompt : str)            (* call of the classification model *)
| EvRetrieve (k : Z) (query : pyval)   (* similarity search for [k] passages *)
| EvGenerate (prompt : str).           (* call of the generation model *)

#[global] Instance event_eq_dec : EqDecision event.
Proof. solve_decision. Defined.

(** The names of the nodes that ran, in order. *)
Definition nodes_run (tr : list event) : list string :=
  omap (fun ev => match ev with EvNode n => Some n | _ => None end) tr.

(** The workflow states reached, in order. *)
Definition states_seen (tr : list event) : list (gmap string pyval) :=
  omap (fun ev => match ev with EvState st => Some st | _ => None end) tr.

(** The calls made to a model or to the index, in order. *)
Definition external_calls (tr : list event) : list event :=
  List.filter
    (fun ev => match ev with EvNode _ | EvState _ => false | _ => true end) tr.

(** ** [rag_chain.py] *)

Definition CHROMA_PATH : str := lit "chroma_db".
Definition COLLECTION_NAME : str := lit "techgear_products".

(** [SYSTEM_PROMPT], with its two placeholders [{context}] and [{question}]
    as arguments. *)
Definition SYSTEM_PROMPT (context question : str) : str :=
  lit "You are a helpful and friendly customer support agent for TechGear Electronics.
Your role is to assist customers with their product inquiries, technical support questions, and general information.

Guidelines:
- Be polite, professional, and helpful at all times
- Provide accurate information based on the context provided
- If the information is not in the context, say you don't have that specific information and suggest contacting support
- Include relevant product details like prices, features, and SKUs when available
- For troubleshooting, provide clear step-by-step instructions
- Keep responses concise but comprehensive

Context from knowledge base:
" ++ context ++ lit "

Customer Query: " ++ question ++ lit "

Response:".

(** The attributes of a [RAGChain] object. A cached client or store is
    recorded by a flag; a cached retriever by the [k] it was built with; a
    cached chain by the [k] of the retriever it closes over. *)
Record RAGChain := {
  chroma_path : str;
  collection_name : str;
  _vectorstore : bool;
  _retriever : option Z;
  _chain : option Z;
  _llm : bool
}.

(** [RAGChain.__init__]. *)
Definition RAGChain_init (path name : str) : RAGChain :=
  {| chroma_path := path; collection_name := name;
     _vectorstore := false; _retriever := None; _chain := None;
     _llm := false |}.

(** [RAGChain._format_docs]. *)
Definition _format_docs (docs : list Document) : str :=
  join (lit "

---

") (page_content <$> docs).

(** The module-level singletons of the two modules and the event history. *)
Record globals := {
  _compiled_graph : bool;
  _rag_chain_instance : option RAGChain;
  trace : list event
}.

(** Methods of a [RAGChain] run on the object and the history. *)
Abbreviation Method := (ST (RAGChain * list event)).

(** Module-level functions run on the globals. *)
Abbreviation M := (ST globals).

(** ** [rag_agent.py]: constants, state and the pure nodes *)

(** [class QueryCategory(str, Enum)] and the [.value] of a member. *)
Inductive QueryCategory := PRODUCTS | RETURNS | GENERAL | ESCALATE.

Definition value (cat : QueryCategory) : str :=
  match cat with
  | PRODUCTS => lit "PRODUCTS"
  | RETURNS => lit "RETURNS"
  | GENERAL => lit "GENERAL"
  | ESCALATE => lit "ESCALATE"
  end.

(** Iterating over the enum yields its members in definition order. *)
Definition QueryCategory_members : list QueryCategory :=
  [PRODUCTS; RETURNS; GENERAL; ESCALATE].

(** [{cat.value for cat in QueryCategory}]. *)
Definition valid_categories : gset str :=
  list_to_set (value <$> QueryCategory_members).

(** [AgentState]: a dict; a key may be absent. *)
Abbreviation AgentState := (gmap string pyval).

(** [CLASSIFIER_PROMPT], with its placeholder [{query}] as argument. *)
Definition CLASSIFIER_PROMPT (query : str) : str :=
  lit "You are a query classifier for TechGear Electronics customer support.
Analyze the customer query and classify it into ONE of these categories:

- PRODUCTS: Questions about product features, specifications, prices, availability, compatibility, troubleshooting, or technical support
- RETURNS: Questions about returns, refunds, exchanges, order cancellations, or warranty claims
- GENERAL: General inquiries about store hours, locations, payment methods, shipping, or company information
- ESCALATE: Complaints, issues requiring human intervention, legal matters, or requests to speak with a manager

Customer Query: " ++ query ++ lit "

Respond with ONLY the category name (PRODUCTS, RETURNS, GENERAL, or ESCALATE), nothing else.".

Definition ESCALATION_MESSAGE : str :=
  lit "I understand your concern, and I want to make sure you receive the best possible assistance.

I'm connecting you with one of our customer support specialists who can help you further. A team member will be with you shortly.

**What you can expect:**
- A support specialist will contact you within 24 hours
- For urgent matters, please call our toll-free number: 1800-102-TECH (1800-102-8324)
- You can also email us at support@techgear.com

Thank you for your patience. Is there anything else I can help you with in the meantime?".

(** [state[key]]. *)
Definition getitem {S} (state : AgentState) (key : string) : ST S pyval :=
  match state !! key with
  | Some v => ret v
  | None => raise (KeyError key)
  end.

(** [state.get(key, default)]. *)
Definition dict_get (state : AgentState) (key : string) (default : pyval) : pyval :=
  match state !! key with
  | Some v => v
  | None => default
  end.

(** The dict literal of [process_query]: the state a run starts from. *)
Definition initial_state (query : str) : AgentState :=
  <["needs_escalation" := VBool false]>
    (<["response" := VStr []]>
       (<["category" := VStr []]>
          (<["input" := VStr query]> ∅))).

(** [escalation_node]: no call, no attribute, no exception. *)
Definition escalation_node (state : AgentState) : AgentState :=
  <["needs_escalation" := VBool true]>
    (<["response" := VStr ESCALATION_MESSAGE]> state).

(** [route_after_classification]. *)
Definition route_after_classification (state : AgentState) : string :=
  let category := dict_get state "category" (VStr []) in
  if py_eq category (VStr (value ESCALATE)) then "escalation"
  else "rag_responder".

(** ** The LangGraph state graph

    [StateGraph(AgentState)] has one last-value channel per key of the
    schema. A compiled graph runs in supersteps: every node of the current
    frontier runs on the state as it was when the step began; the keys of
    the schema in the dict a node returns are its writes; the conditional
    edges of a node are evaluated on the state with that node's writes
    applied; two writes to one channel in the same step are refused; the
    state with the writes of the step applied is recorded in the history;
    the targets other than [END] form the next frontier; the number of steps
    is bounded by the recursion limit. *)

Definition END : string := "__end__".

Definition recursion_limit : nat := 25.

Record StateGraph := {
  channels : list string;
  nodes : list (string * (AgentState -> M AgentState));
  entry_point : option string;
  edges : list (string * string);
  branches : list (string * ((AgentState -> string) * list (string * string)))
}.

Definition StateGraph_init (schema : list string) : StateGraph :=
  {| channels := schema; nodes := []; entry_point := None;
     edges := []; branches := [] |}.

Definition add_node (name : string) (action : AgentState -> M AgentState)
    (g : StateGraph) : StateGraph :=
  {| channels := channels g; nodes := nodes g ++ [(name, action)];
     entry_point := entry_point g; edges := edges g; branches := branches g |}.

Definition set_entry_point (name : string) (g : StateGraph) : StateGraph :=
  {| channels := channels g; nodes := nodes g;
     entry_point := Some name; edges := edges g; branches := branches g |}.

Definition add_conditional_edges (source : string) (path : AgentState -> string)
    (path_map : list (string * string)) (g : StateGraph) : StateGraph :=
  {| channels := channels g; nodes := nodes g; entry_point := entry_point g;
     edges := edges g;
     branches := branches g ++ [(source, (path, path_map))] |}.

Definition add_edge (start_key end_key : string) (g : StateGraph) : StateGraph :=
  {| channels := channels g; nodes := nodes g; entry_point := entry_point g;
     edges := edges g ++ [(start_key, end_key)]; branches := branches g |}.

(** The first binding of [key] in an association list. *)
Fixpoint assoc {A} (key : string) (l : list (string * A)) : option A :=
  match l with
  | [] => None
  | (k, a) :: rest => if String.eqb k key then Some a else assoc key rest
  end.

(** The writes of a returned dict: its entries at the keys of the schema. *)
Definition writes (g : StateGraph) (returned : AgentState) : list (string * pyval) :=
  omap (fun k => pair k <$> returned !! k) (channels g).

Definition apply_writes (ws : list (string * pyval)) (state : AgentState) : AgentState :=
  foldl (fun acc w => <[fst w := snd w]> acc) state ws.

(** The first key that occurs twice. *)
Fixpoint first_dup (keys : list string) : option string :=
  match keys with
  | [] => None
  | k :: rest => if bool_decide (k ∈ rest) then Some k else first_dup rest
  end.

(** The targets of the edges that leave [name], conditional edges evaluated
    on [fresh]; a path that is not a key of its map is a [KeyError]. *)
Fixpoint branch_targets (name : string) (fresh : AgentState)
    (bs : list (string * ((AgentState -> string) * list (string * string))))
    : result (list string) :=
  match bs with
  | [] => Ok []
  | (source, (path, path_map)) :: rest =>
      if String.eqb source name then
        match assoc (path fresh) path_map with
        | None => Raise (KeyError (path fresh))
        | Some target =>
            match branch_targets name fresh rest with
            | Ok ts => Ok (target :: ts)
            | Raise e => Raise e
            end
        end
      else branch_targets name fresh rest
  end.

Definition successors (g : StateGraph) (name : string) (fresh : AgentState)
    : result (list string) :=
  match branch_targets name fresh (branches g) with
  | Ok ts =>
      Ok ((snd <$> List.filter (fun e => String.eqb (fst e) name) (edges g)) ++ ts)
  | Raise e => Raise e
  end.

(** A node starts: the event is appended to the history. *)
Definition log_event (ev : event) : M unit :=
  fun g => (Ok tt, {| _compiled_graph := _compiled_graph g;
                      _rag_chain_instance := _rag_chain_instance g;
                      trace := trace g ++ [ev] |}).

(** One superstep: the writes and the successors of every node of the
    frontier, each run on [snapshot]. *)
Fixpoint run_tasks (g : StateGraph) (snapshot : AgentState) (frontier : list string)
    : M (list (string * pyval) * list string) :=
  match frontier with
  | [] => ret ([], [])
  | name :: rest =>
      match assoc name (nodes g) with
      | None => raise (UnknownNode name)
      | Some action =>
          log_event (EvNode name);;;
          returned <- action snapshot;;
          let ws := writes g returned in
          match successors g name (apply_writes ws snapshot) with
          | Raise e => raise e
          | Ok next =>
              others <- run_tasks g snapshot rest;;
              ret (ws ++ fst others, next ++ snd others)
          end
      end
  end.

Fixpoint pregel_loop (g : StateGraph) (steps : nat) (frontier : list string)
    (state : AgentState) : M AgentState :=
  match frontier with
  | [] => ret state
  | _ :: _ =>
      match steps with
      | O => raise GraphRecursionError
      | S steps' =>
          done <- run_tasks g state frontier;;
          match first_dup (fst <$> fst done) with
          | Some key => raise (InvalidUpdateError key)
          | None =>
              let state' := apply_writes (fst done) state in
              log_event (EvState state');;;
              pregel_loop g steps'
                (remove_dups (List.filter (fun n => negb (String.eqb n END)) (snd done)))
                state'
          end
      end
  end.

(** [graph.invoke(input)]: the input is written to the channels, the entry
    point runs first, the channel values at the end are the result. *)
Definition graph_invoke (g : StateGraph) (input : AgentState) : M AgentState :=
  match entry_point g with
  | None => raise (UnknownNode "__start__")
  | Some name =>
      pregel_loop g recursion_limit [name] (apply_writes (writes g input) ∅)
  end.

Section Workflow.
(** The Unicode tables behind [strip] and [upper]. *)
Variable isspace : N -> bool.
Variable toupper : N -> list N.

(** The classification model, the generation model and the vector index.
    Each sees the history so far, the request, and answers or raises. *)
Variable classifier_llm : list event -> str -> result str.
Variable rag_llm : list event -> str -> result str.
Variable vector_index : list event -> pyval -> Z -> result (list Document).

(** [retriever.invoke(query)] for a retriever built with [k]. *)
Definition retriever_invoke (k : Z) (query : pyval) : Method (list Document) :=
  fun '(self, tr) => (vector_index tr query k, (self, tr ++ [EvRetrieve k query])).

(** The generation model applied to a formatted prompt, its answer parsed
    to a [str]. *)
Definition llm_invoke (prompt : str) : Method str :=
  fun '(self, tr) => (rag_llm tr prompt, (self, tr ++ [EvGenerate prompt])).

Definition update_self (f : RAGChain -> RAGChain) : Method unit :=
  fun '(self, tr) => (Ok tt, (f self, tr)).

Definition read_self : Method RAGChain :=
  fun '(self, tr) => (Ok self, (self, tr)).

(** [RAGChain._get_llm]. *)
Definition _get_llm : Method unit :=
  update_self (fun self =>
    {| chroma_path := chroma_path self; collection_name := collection_name self;
       _vectorstore := _vectorstore self; _retriever := _retriever self;
       _chain := _chain self; _llm := true |}).

(** [RAGChain.get_vectorstore]. *)
Definition get_vectorstore : Method unit :=
  update_self (fun self =>
    {| chroma_path := chroma_path self; collection_name := collection_name self;
       _vectorstore := true; _retriever := _retriever self;
       _chain := _chain self; _llm := _llm self |}).

(** [RAGChain.get_retriever]: the retriever is built on first use only;
    the result is the [k] of the retriever returned. *)
Definition get_retriever (k : Z) : Method Z :=
  self <- read_self;;
  match _retriever self with
  | None =>
      get_vectorstore;;;
      update_self (fun self =>
        {| chroma_path := chroma_path self; collection_name := collection_name self;
           _vectorstore := _vectorstore self; _retriever := Some k;
           _chain := _chain self; _llm := _llm self |});;;
      ret k
  | Some k0 => ret k0
  end.

(** [RAGChain.get_chain]: the chain is built on first use only, around
    [get_retriever()] with its default [k = 4]; the result is the [k] of
    the retriever inside the chain returned. *)
Definition get_chain : Method Z :=
  self <- read_self;;
  match _chain self with
  | None =>
      k <- get_retriever 4;;
      _get_llm;;;
      update_self (fun self =>
        {| chroma_path := chroma_path self; collection_name := collection_name self;
           _vectorstore := _vectorstore self; _retriever := _retriever self;
           _chain := Some k; _llm := _llm self |});;;
      ret k
  | Some k => ret k
  end.

(** [chain.invoke(query)]: retrieve, format the passages into the context
    block, fill the prompt, generate. *)
Definition chain_invoke (k : Z) (query : pyval) : Method str :=
  docs <- retriever_invoke k query;;
  llm_invoke (SYSTEM_PROMPT (_format_docs docs) (py_str query)).

(** [RAGChain.invoke]. *)
Definition invoke (query : pyval) : Method str :=
  k <- get_chain;;
  chain_invoke k query.

(** [RAGChain.retrieve_context]. *)
Definition retrieve_context (query : pyval) (k : Z) : Method (list Document) :=
  k' <- get_retriever k;;
  retriever_invoke k' query.

(** [rag = get_rag_chain()] followed by a method call [rag.method(...)]:
    the singleton is created on first use, the method runs on it, and the
    object as the method left it stays the singleton. *)
Definition get_rag_chain {A} (method : Method A) : M A :=
  fun g =>
    let self :=
      match _rag_chain_instance g with
      | None => RAGChain_init CHROMA_PATH COLLECTION_NAME
      | Some rag => rag
      end in
    let '(r, (self', tr')) := method (self, trace g) in
    (r, {| _compiled_graph := _compiled_graph g;
           _rag_chain_instance := Some self';
           trace := tr' |}).

(** [query_rag]. *)
Definition query_rag (question : pyval) : M str :=
  get_rag_chain (invoke question).

(** ** [rag_agent.py]: the nodes that call out, and the workflow *)

(** [(prompt | llm | StrOutputParser()).invoke({"query": query})] with the
    classifier's model client. *)
Definition classifier_chain_invoke (query : pyval) : M str :=
  fun g =>
    let prompt := CLASSIFIER_PROMPT (py_str query) in
    (classifier_llm (trace g) prompt,
     {| _compiled_graph := _compiled_graph g;
        _rag_chain_instance := _rag_chain_instance g;
        trace := trace g ++ [EvClassify prompt] |}).

(** [.strip().upper()], then the fallback to [GENERAL]. *)
Definition normalize (raw : str) : str :=
  let result := upper toupper (strip isspace raw) in
  if bool_decide (result ∉ valid_categories) then value GENERAL else result.

(** [classifier_node]. *)
Definition classifier_node (state : AgentState) : M AgentState :=
  query <- getitem state "input";;
  raw <- classifier_chain_invoke query;;
  let result := normalize raw in
  ret (<["needs_escalation" := VBool (bool_decide (result = value ESCALATE))]>
         (<["category" := VStr result]> state)).

(** [rag_responder_node]. *)
Definition rag_responder_node (state : AgentState) : M AgentState :=
  query <- getitem state "input";;
  response <- get_rag_chain (invoke query);;
  ret (<["response" := VStr response]> state).

(** [build_workflow]. *)
Definition build_workflow : StateGraph :=
  let workflow :=
    StateGraph_init ["input"; "category"; "response"; "needs_escalation"] in
  let workflow := add_node "classifier" classifier_node workflow in
  let workflow := add_node "rag_responder" rag_responder_node workflow in
  let workflow := add_node "escalation" (fun state => ret (escalation_node state)) workflow in
  let workflow := set_entry_point "classifier" workflow in
  let workflow :=
    add_conditional_edges "classifier" route_after_classification
      [("rag_responder", "rag_responder"); ("escalation", "escalation")]
      workflow in
  let workflow := add_edge "rag_responder" END workflow in
  let workflow := add_edge "escalation" END workflow in
  workflow.

(** [compile_workflow]: the compiled graph runs the graph as built. *)
Definition compile_workflow : StateGraph := build_workflow.

(** [get_compiled_graph]: compiled on first use; the compiled graph is the
    same value every time, so the singleton is recorded by a flag. *)
Definition get_compiled_graph : M StateGraph :=
  fun g =>
    (Ok compile_workflow,
     {| _compiled_graph := true;
        _rag_chain_instance := _rag_chain_instance g;
        trace := trace g |}).

(** [process_query]. *)
Definition process_query (query : str) : M AgentState :=
  graph <- get_compiled_graph;;
  graph_invoke graph (initial_state query).
End Workflow.

(** ** Vocabulary of the statements *)

(** The globals after one more event. *)
Definition logged (ev : event) (s : globals) : globals :=
  {| _compiled_graph := _compiled_graph s;
     _rag_chain_instance := _rag_chain_instance s;
     trace := trace s ++ [ev] |}.

(** The globals once the workflow has been compiled. *)
Definition compiled (g : globals) : globals :=
  {| _compiled_graph := true;
     _rag_chain_instance := _rag_chain_instance g;
     trace := trace g |}.

(** A state with the four keys of the schema. *)
Definition result_record (input category response : str) (needs_escalation : bool)
    : AgentState :=
  <["needs_escalation" := VBool needs_escalation]>
    (<["response" := VStr response]>
       (<["category" := VStr category]>
          (<["input" := VStr input]> ∅))).

(** The [RAGChain] that [get_rag_chain()] returns. *)
Definition singleton (g : globals) : RAGChain :=
  match _rag_chain_instance g with
  | None => RAGChain_init CHROMA_PATH COLLECTION_NAME
  | Some rag => rag
  end.

(** The [k] of the retriever that [get_retriever(k)] returns on [self]. *)
Definition retriever_k (k : Z) (self : RAGChain) : Z :=
  match _retriever self with
  | Some k0 => k0
  | None => k
  end.

(** The object after [get_retriever(k)]. *)
Definition with_retriever (k : Z) (self : RAGChain) : RAGChain :=
  match _retriever self with
  | Some _ => self
  | None =>
      {| chroma_path := chroma_path self; collection_name := collection_name self;
         _vectorstore := true; _retriever := Some k;
         _chain := _chain self; _llm := _llm self |}
  end.

(** The [k] of the retriever inside the chain that [get_chain()] returns. *)
Definition chain_k (self : RAGChain) : Z :=
  match _chain self with
  | Some k => k
  | None => retriever_k 4 self
  end.

(** The object after [get_chain()]. *)
Definition with_chain (self : RAGChain) : RAGChain :=
  match _chain self with
  | Some _ => self
  | None =>
      let self' := with_retriever 4 self in
      {| chroma_path := chroma_path self'; collection_name := collection_name self';
         _vectorstore := _vectorstore self'; _retriever := _retriever self';
         _chain := Some (retriever_k 4 self); _llm := true |}
  end.

(** The history the classification model sees in a run started at [g]. *)
Definition classify_history (g : globals) : list event :=
  trace g ++ [EvNode "classifier"].

(** The state the classifier node leaves for category [c]. *)
Definition classified_state (query c : str) : AgentState :=
  result_record query c [] (bool_decide (c = value ESCALATE)).

(** The history the vector index sees when the run reaches the RAG
    responder with category [c]. *)
Definition respond_history (g : globals) (query c : str) : list event :=
  classify_history g ++
  [EvClassify (CLASSIFIER_PROMPT query); EvState (classified_state query c);
   EvNode "rag_responder"].

(** ** A small concrete world, for running the model *)

Module Demo.

(** A classification model that always answers [answer]. *)
Definition classifier_says (answer : str) : list event -> str -> result str :=
  fun _ _ => Ok answer.

(** A generation model that always answers [answer]. *)
Definition generator_says (answer : str) : list event -> str -> result str :=
  fun _ _ => Ok answer.

(** A model client whose every call raises. *)
Definition model_down : list event -> str -> result str :=
  fun _ _ => Raise (ExternalError (lit "503 Service Unavailable")).

(** An index that ranks its passages in the stored order for every query
    and answers with the first [k] of them. *)
Definition index_of (docs : list Document) : list event -> pyval -> Z -> result (list Document) :=
  fun _ _ k => Ok (firstn (Z.to_nat k) docs).

Definition passages : list Document :=
  [ {| page_content := lit "SmartWatch Pro X: Rs. 15,999" |};
    {| page_content := lit "Wireless Earbuds Elite: Rs. 4,999" |};
    {| page_content := lit "Returns are accepted within 7 days" |} ].

(** A process that has not served any query yet. *)
Definition fresh : globals :=
  {| _compiled_graph := false; _rag_chain_instance := None; trace := [] |}.

Definition manager_query : str :=
  lit "This is unacceptable! I want to speak to a manager!".

Definition price_query : str :=
  lit "What is the price of SmartWatch Pro X?".

(** [process_query] in a world whose classifier answers [label], whose
    generator is [gen] and whose index holds [docs]. *)
Definition run (label : str) (gen : list event -> str -> result str)
    (docs : list Document) (query : str) : M AgentState :=
  process_query ascii_isspace ascii_toupper (classifier_says label) gen
    (index_of docs) query.

(** A classifier answer with stray white space and lower case. *)
Definition escalate_answer : str := lit "  escalate
".

Definition products_answer : str := lit " Products ".

Definition generated_answer : str :=
  lit "The SmartWatch Pro X costs Rs. 15,999.".

(** The record and the globals the run of [manager_query] ends with when
    the classifier answers [escalate_answer]. *)
Definition escalated_record : AgentState :=
  result_record manager_query (value ESCALATE) ESCALATION_MESSAGE true.

Definition escalated_globals : globals :=
  {| _compiled_graph := true;
     _rag_chain_instance := None;
     trace :=
       [EvNode "classifier";
        EvClassify (CLASSIFIER_PROMPT manager_query);
        EvState (classified_state manager_query (value ESCALATE));
        EvNode "escalation";
        EvState escalated_record] |}.

(** The record and the globals the run of [price_query] ends with when the
    classifier answers [products_answer] and the generator
    [generated_answer]. *)
Definition answered_record : AgentState :=
  result_record price_query (value PRODUCTS) generated_answer false.

Definition answered_globals : globals :=
  {| _compiled_graph := true;
     _rag_chain_instance :=
       Some {| chroma_path := CHROMA_PATH; collection_name := COLLECTION_NAME;
               _vectorstore := true; _retriever := Some 4%Z;
               _chain := Some 4%Z; _llm := true |};
     trace :=
       [EvNode "classifier";
        EvClassify (CLASSIFIER_PROMPT price_query);
        EvState (classified_state price_query (value PRODUCTS));
        EvNode "rag_responder";
        EvRetrieve 4 (VStr price_query);
        EvGenerate (SYSTEM_PROMPT (_format_docs passages) price_query);
        EvState answered_record] |}.

(** A [RAGChain] just constructed, and the same object after it has
    answered one query. *)
Definition new_chain : RAGChain * list event :=
  (RAGChain_init CHROMA_PATH COLLECTION_NAME, []).

Definition served_chain : RAGChain * list event :=
  snd (invoke (generator_says generated_answer) (index_of passages)
         (VStr price_query) new_chain).

End Demo.

(** ** More of [rag_chain.py]: the separator and the cache discipline *)

(** The separator [_format_docs] joins with. *)
Definition DOC_SEPARATOR : str := lit "

---

".

(** The caches of an object agree with each other: a retriever exists only
    over a vector store, and a chain exists only around the cached
    retriever and a cached model client. *)
Definition coherent (self : RAGChain) : bool :=
  match _retriever self with
  | Some _ => _vectorstore self
  | None => true
  end
  && match _chain self with
     | Some k => bool_decide (_retriever self = Some k) && _llm self
     | None => true
     end.

(** ** [main.py]: the chat endpoint *)

Module Api.

(** [class ChatResponse(BaseModel)]. *)
Record ChatResponse := {
  response : str;
  category : str;
  needs_escalation : bool
}.

(** [HTTPException(status_code=..., detail=...)]. *)
Record HTTPException := {
  status_code : nat;
  detail : str
}.

(** What a call of the endpoint function ends with: the response model it
    returns or the [HTTPException] it raises. *)
Inductive outcome :=
| Return (body : ChatResponse)
| RaiseHTTP (e : HTTPException).

(** [not os.getenv(name)]: the variable is unset or empty. *)
Definition not_set (var : option str) : bool :=
  match var with
  | None => true
  | Some [] => true
  | Some (_ :: _) => false
  end.

Section Endpoint.
Variable isspace : N -> bool.
Variable toupper : N -> list N.
Variable classifier_llm : list event -> str -> result str.
Variable rag_llm : list event -> str -> result str.
Variable vector_index : list event -> pyval -> Z -> result (list Document).

(** [str(e)] of an exception. *)
Variable str_exn : exn -> str.

(** The validating constructor of [ChatResponse], applied to the three
    values read from the record. *)
Variable ChatResponse_init : pyval -> pyval -> pyval -> result ChatResponse.

(** What is assumed of the constructor: given two strings and a boolean,
    the declared types of the fields, it stores them. *)
Definition accepts_typed_fields : Prop :=
  ∀ r c b,
    ChatResponse_init (VStr r) (VStr c) (VBool b)
    = Ok {| response := r; category := c; needs_escalation := b |}.

(** [except Exception as e: raise HTTPException(500, f"An error occurred: ...")]. *)
Definition internal_error (e : exn) : HTTPException :=
  {| status_code := 500; detail := lit "An error occurred: " ++ str_exn e |}.

(** The [ChatResponse(...)] expression of [chat]: the three subscripts in
    order, then the constructor. *)
Definition build_response (record : AgentState) : result ChatResponse :=
  match record !! "response" with
  | None => Raise (KeyError "response")
  | Some r =>
      match record !! "category" with
      | None => Raise (KeyError "category")
      | Some c =>
          match record !! "needs_escalation" with
          | None => Raise (KeyError "needs_escalation")
          | Some b => ChatResponse_init r c b
          end
      end
  end.

(** The body of [chat], for a validated request and with the value of the
    environment variable [GOOGLE_API_KEY] at the time of the call. *)
Definition chat (GOOGLE_API_KEY : option str) (query : str)
    : globals -> outcome * globals :=
  fun g =>
    if not_set GOOGLE_API_KEY then
      (RaiseHTTP {| status_code := 500;
                    detail := lit "Google API key not configured." |}, g)
    else
      match process_query isspace toupper classifier_llm rag_llm vector_index
              query g with
      | (Raise e, g') => (RaiseHTTP (internal_error e), g')
      | (Ok record, g') =>
          match build_response record with
          | Ok body => (Return body, g')
          | Raise e => (RaiseHTTP (internal_error e), g')
          end
      end.
End Endpoint.

End Api.

(** Concrete values for running the endpoint. *)
Module ApiDemo.

(** A constructor that accepts values of the declared field types. *)
Definition ChatResponse_typed (r c b : pyval) : result Api.ChatResponse :=
  match r, c, b with
  | VStr r, VStr c, VBool b =>
      Ok {| Api.response := r; Api.category := c; Api.needs_escalation := b |}
  | _, _, _ => Raise (ExternalError (lit "validation error"))
  end.

(** The message of an exception raised by a collaborator. *)
Definition message (e : exn) : str :=
  match e with
  | ExternalError msg => msg
  | _ => lit "error"
  end.

Definition api_key : option str := Some (lit "AIza-demo").

Definition chat (key : option str) (label : str)
    (gen : list event -> str -> result str) (docs : list Document)
    (query : str) : globals -> Api.outcome * globals :=
  Api.chat ascii_isspace ascii_toupper (Demo.classifier_says label) gen
    (Demo.index_of docs) message ChatResponse_typed key query.

End ApiDemo.

(** More concrete values, for running the code above. *)
Module MoreDemo.

(** An index whose every search raises. *)
Definition index_down : list event -> pyval -> Z -> result (list Document) :=
  fun _ _ _ => Raise (ExternalError (lit "chroma: collection not found")).

(** The label [ESCALATE] followed by a full stop. *)
Definition escalate_dot_answer : str := lit "escalate.".

(** The object inside [Demo.served_chain]. *)
Definition served : RAGChain := fst Demo.served_chain.

(** The state and the globals [classifier_node] leaves when it is run on
    the initial state of [Demo.manager_query] and the classifier answers
    [Demo.escalate_answer]. *)
Definition classified : AgentState :=
  classified_state Demo.manager_query (value ESCALATE).

Definition classified_globals : globals :=
  {| _compiled_graph := false;
     _rag_chain_instance := None;
     trace := [EvClassify (CLASSIFIER_PROMPT Demo.manager_query)] |}.

End MoreDemo.

(** ** Facts about dicts, writes and supersteps *)

Section GraphFacts.
Implicit Types (g : StateGraph) (st upd : AgentState) (k : string).

Lemma apply_writes_lookup g upd st k :
  apply_writes (writes g upd) st !! k
  = if bool_decide (k ∈ channels g)
    then match upd !! k with Some v => Some v | None => st !! k end
    else st !! k.
Proof.
  unfold apply_writes, writes. generalize (channels g) as chs.
  intros chs. revert st. induction chs as [|c chs IH]; intros st; simpl; [done|].
  destruct (decide (c = k)) as [->|Hne].
  - rewrite (bool_decide_eq_true_2 (k ∈ k :: chs)) by apply list_elem_of_here.
    destruct (upd !! k) as [v|] eqn:Hk; simpl; rewrite IH, ?Hk.
    + rewrite lookup_insert_eq. by destruct (bool_decide (k ∈ chs)).
    + by destruct (bool_decide (k ∈ chs)).
  - assert (Hcons : k ∈ c :: chs ↔ k ∈ chs).
    { rewrite elem_of_cons. split; [|by right].
      intros [Heq|Hin]; [congruence | done]. }
    rewrite (bool_decide_ext _ _ Hcons).
    destruct (upd !! c) as [v|]; simpl; rewrite IH; [|done].
    by rewrite lookup_insert_ne.
Qed.

(** A node that returns its input dict with some schema keys assigned
    writes exactly the dict it returns. *)
Lemma apply_writes_returned g upd st :
  (∀ k, k ∉ channels g → upd !! k = st !! k) →
  (∀ k, upd !! k = None → st !! k = None) →
  apply_writes (writes g upd) st = upd.
Proof.
  intros Hout Hdel. apply map_eq. intros k. rewrite apply_writes_lookup.
  case_bool_decide as Hk.
  - destruct (upd !! k) eqn:E; [done|]. by apply Hdel.
  - symmetry. by apply Hout.
Qed.

Lemma apply_writes_insert1 g st k1 v1 :
  k1 ∈ channels g →
  apply_writes (writes g (<[k1:=v1]> st)) st = <[k1:=v1]> st.
Proof.
  intros H1. apply apply_writes_returned; intros k.
  - intros Hk. rewrite !lookup_insert_ne; [done | set_solver..].
  - intros Hnone. destruct (decide (k1 = k)) as [->|?].
    { by rewrite lookup_insert_eq in Hnone. }
    by rewrite lookup_insert_ne in Hnone.
Qed.

Lemma apply_writes_insert2 g st k1 v1 k2 v2 :
  k1 ∈ channels g → k2 ∈ channels g →
  apply_writes (writes g (<[k1:=v1]> (<[k2:=v2]> st))) st
  = <[k1:=v1]> (<[k2:=v2]> st).
Proof.
  intros H1 H2. apply apply_writes_returned; intros k.
  - intros Hk. rewrite !lookup_insert_ne; [done | set_solver..].
  - intros Hnone. destruct (decide (k1 = k)) as [->|?].
    { by rewrite lookup_insert_eq in Hnone. }
    rewrite lookup_insert_ne in Hnone by done.
    destruct (decide (k2 = k)) as [->|?].
    { by rewrite lookup_insert_eq in Hnone. }
    by rewrite lookup_insert_ne in Hnone.
Qed.

Lemma first_dup_NoDup (keys : list string) : NoDup keys → first_dup keys = None.
Proof.
  induction 1 as [|key keys Hk _ IH]; simpl; [done|].
  by rewrite bool_decide_eq_false_2.
Qed.

Lemma writes_keys_sublist g upd : sublist (fst <$> writes g upd) (channels g).
Proof.
  unfold writes. induction (channels g) as [|c chs IH]; simpl; [done|].
  destruct (upd !! c); simpl; by constructor.
Qed.

Lemma first_dup_writes g upd :
  NoDup (channels g) → first_dup (fst <$> writes g upd) = None.
Proof.
  intros Hnd. apply first_dup_NoDup.
  eapply sublist_NoDup; [done | apply writes_keys_sublist].
Qed.

Lemma pregel_loop_nil g steps st : pregel_loop g steps [] st = ret st.
Proof. by destruct steps. Qed.

(** One superstep of a frontier of one node. *)
Lemma pregel_loop_single g steps name action st s :
  assoc name (nodes g) = Some action →
  NoDup (channels g) →
  pregel_loop g (S steps) [name] st s =
    match action st (logged (EvNode name) s) with
    | (Raise e, s') => (Raise e, s')
    | (Ok returned, s') =>
        let st' := apply_writes (writes g returned) st in
        match successors g name st' with
        | Raise e => (Raise e, s')
        | Ok next =>
            pregel_loop g steps
              (remove_dups (List.filter (fun n => negb (String.eqb n END)) next))
              st' (logged (EvState st') s')
        end
    end.
Proof.
  intros Hnode Hnd. simpl. unfold bind. rewrite Hnode. simpl.
  fold (logged (EvNode name) s).
  destruct (action st (logged (EvNode name) s)) as [[returned|e] s']; [|done].
  simpl. destruct (successors g name _) as [next|e]; [|done].
  simpl. rewrite !app_nil_r. by rewrite first_dup_writes.
Qed.

End GraphFacts.

(** ** Facts about the RAG chain, the nodes and a run of the workflow *)

Section WorkflowFacts.
Variable isspace : N -> bool.
Variable toupper : N -> list N.
Variable classifier_llm : list event -> str -> result str.
Variable rag_llm : list event -> str -> result str.
Variable vector_index : list event -> pyval -> Z -> result (list Document).

Local Abbreviation wf :=
  (compile_workflow isspace toupper classifier_llm rag_llm vector_index).
Local Abbreviation cnode := (classifier_node isspace toupper classifier_llm).
Local Abbreviation rnode := (rag_responder_node rag_llm vector_index).
Local Abbreviation norm := (normalize isspace toupper).
Local Abbreviation rag_invoke := (invoke rag_llm vector_index).
Local Abbreviation run_query :=
  (process_query isspace toupper classifier_llm rag_llm vector_index).

(** *** The RAG chain *)

Lemma get_retriever_run k self tr :
  get_retriever k (self, tr) = (Ok (retriever_k k self), (with_retriever k self, tr)).
Proof.
  unfold get_retriever, retriever_k, with_retriever, bind, read_self.
  by destruct (_retriever self).
Qed.

Lemma get_chain_run self tr :
  get_chain (self, tr) = (Ok (chain_k self), (with_chain self, tr)).
Proof.
  unfold get_chain, chain_k, with_chain, bind, read_self.
  destruct (_chain self); [done|].
  by rewrite get_retriever_run.
Qed.

(** [invoke]: one similarity search with the [k] of the chain's retriever,
    then, if it answered, one generation call on the filled prompt. *)
Lemma invoke_run query self tr :
  rag_invoke query (self, tr) =
    let k := chain_k self in
    let tr1 := tr ++ [EvRetrieve k query] in
    match vector_index tr query k with
    | Raise e => (Raise e, (with_chain self, tr1))
    | Ok docs =>
        let prompt := SYSTEM_PROMPT (_format_docs docs) (py_str query) in
        (rag_llm tr1 prompt, (with_chain self, tr1 ++ [EvGenerate prompt]))
    end.
Proof.
  unfold invoke, bind. rewrite get_chain_run.
  unfold chain_invoke, bind, retriever_invoke. cbv zeta.
  by destruct (vector_index tr query (chain_k self)).
Qed.

(** [retrieve_context]: the [k] asked for reaches the index only when the
    object has no retriever yet. *)
Lemma retrieve_context_run query k self tr :
  retrieve_context vector_index query k (self, tr) =
    (vector_index tr query (retriever_k k self),
     (with_retriever k self, tr ++ [EvRetrieve (retriever_k k self) query])).
Proof.
  unfold retrieve_context, bind. by rewrite get_retriever_run.
Qed.

Lemma get_rag_chain_invoke_run query s :
  get_rag_chain (rag_invoke query) s =
    let self := singleton s in
    let k := chain_k self in
    let after tr :=
      {| _compiled_graph := _compiled_graph s;
         _rag_chain_instance := Some (with_chain self);
         trace := tr |} in
    let tr1 := trace s ++ [EvRetrieve k query] in
    match vector_index (trace s) query k with
    | Raise e => (Raise e, after tr1)
    | Ok docs =>
        let prompt := SYSTEM_PROMPT (_format_docs docs) (py_str query) in
        (rag_llm tr1 prompt, after (tr1 ++ [EvGenerate prompt]))
    end.
Proof.
  unfold get_rag_chain. fold (singleton s). rewrite invoke_run. cbv zeta.
  by destruct (vector_index (trace s) query (chain_k (singleton s))).
Qed.

(** *** The nodes *)

Lemma classifier_node_run (st : AgentState) v s :
  st !! "input" = Some v →
  cnode st s =
    match classifier_llm (trace s) (CLASSIFIER_PROMPT (py_str v)) with
    | Ok raw =>
        (Ok (<["needs_escalation" := VBool (bool_decide (norm raw = value ESCALATE))]>
               (<["category" := VStr (norm raw)]> st)),
         logged (EvClassify (CLASSIFIER_PROMPT (py_str v))) s)
    | Raise e => (Raise e, logged (EvClassify (CLASSIFIER_PROMPT (py_str v))) s)
    end.
Proof.
  intros Hin. unfold classifier_node, getitem, bind. rewrite Hin. simpl.
  unfold classifier_chain_invoke. by destruct (classifier_llm _ _).
Qed.

Lemma rag_responder_node_run (st : AgentState) v s :
  st !! "input" = Some v →
  rnode st s =
    match get_rag_chain (rag_invoke v) s with
    | (Ok response, s') => (Ok (<["response" := VStr response]> st), s')
    | (Raise e, s') => (Raise e, s')
    end.
Proof.
  intros Hin. unfold rag_responder_node, getitem, bind. rewrite Hin. simpl.
  by destruct (get_rag_chain _ _) as [[?|?] ?].
Qed.

Lemma route_classified (st : AgentState) c :
  st !! "category" = Some (VStr c) →
  route_after_classification st =
    if bool_decide (c = value ESCALATE) then "escalation" else "rag_responder".
Proof.
  intros Hc. unfold route_after_classification, dict_get, py_eq. rewrite Hc.
  destruct (decide (c = value ESCALATE)) as [->|Hne].
  - by rewrite !bool_decide_eq_true_2.
  - rewrite !bool_decide_eq_false_2; [done..|congruence].
Qed.

(** *** The compiled graph *)

Lemma wf_channels_NoDup : NoDup (channels wf).
Proof. apply (bool_decide_unpack _). by vm_compute. Qed.

Lemma wf_classifier : assoc "classifier" (nodes wf) = Some cnode.
Proof. reflexivity. Qed.

Lemma wf_rag_responder : assoc "rag_responder" (nodes wf) = Some rnode.
Proof. reflexivity. Qed.

Lemma wf_escalation :
  assoc "escalation" (nodes wf) = Some (fun state => ret (escalation_node state)).
Proof. reflexivity. Qed.

Lemma successors_classifier st :
  successors wf "classifier" st = Ok [route_after_classification st].
Proof.
  unfold successors. cbn. unfold route_after_classification.
  by destruct (py_eq _ _).
Qed.

Lemma successors_terminal name st :
  name = "rag_responder" ∨ name = "escalation" →
  successors wf name st = Ok [END].
Proof. by intros [-> | ->]. Qed.

Lemma initial_writes q : apply_writes (writes wf (initial_state q)) ∅ = initial_state q.
Proof.
  apply apply_writes_returned.
  - intros k Hk. unfold initial_state. simpl in Hk.
    rewrite !lookup_insert_ne by set_solver. done.
  - intros k _. apply lookup_empty.
Qed.

(** *** A run of [process_query], step by step

    The classifier node runs first; if its model call raises, the run ends
    with that exception. Otherwise the router looks at the category: on
    [ESCALATE] the escalation node runs and the run returns; on any other
    category the RAG responder runs, and the run returns what it returns or
    raises what it raises. *)
Lemma process_query_run q g :
  run_query q g =
    let g1 := logged (EvNode "classifier") (compiled g) in
    let g2 := logged (EvClassify (CLASSIFIER_PROMPT q)) g1 in
    match classifier_llm (trace g1) (CLASSIFIER_PROMPT q) with
    | Raise e => (Raise e, g2)
    | Ok raw =>
        let c := norm raw in
        let g3 := logged (EvState (classified_state q c)) g2 in
        if bool_decide (c = value ESCALATE) then
          let final := result_record q c ESCALATION_MESSAGE true in
          (Ok final, logged (EvState final) (logged (EvNode "escalation") g3))
        else
          match get_rag_chain (rag_invoke (VStr q))
                  (logged (EvNode "rag_responder") g3) with
          | (Ok response, g4) =>
              let final := result_record q c response false in
              (Ok final, logged (EvState final) g4)
          | (Raise e, g4) => (Raise e, g4)
          end
    end.
Proof.
  unfold process_query, bind, get_compiled_graph, graph_invoke.
  cbn [entry_point compile_workflow build_workflow set_entry_point
       add_conditional_edges add_edge].
  fold (compiled g). rewrite initial_writes. unfold recursion_limit.
  rewrite (pregel_loop_single _ _ _ _ _ _ wf_classifier wf_channels_NoDup).
  rewrite (classifier_node_run _ (VStr q)) by done.
  cbn [py_str trace logged].
  destruct (classifier_llm _ _) as [raw|e]; [|done].
  cbv zeta.
  rewrite apply_writes_insert2 by (simpl; set_solver).
  rewrite successors_classifier.
  erewrite route_classified by reflexivity.
  change (<["needs_escalation":=_]> (<["category":=_]> (initial_state q)))
    with (classified_state q (norm raw)).
  unfold classified_state.
  destruct (decide (norm raw = value ESCALATE)) as [Hesc|Hesc].
  - rewrite !(bool_decide_eq_true_2 _ Hesc).
    change (remove_dups _) with ["escalation"].
    rewrite (pregel_loop_single _ _ _ _ _ _ wf_escalation wf_channels_NoDup).
    unfold ret. cbv zeta. unfold escalation_node.
    rewrite apply_writes_insert2 by (simpl; set_solver).
    rewrite successors_terminal by auto.
    change (remove_dups _) with (@nil string).
    rewrite pregel_loop_nil. reflexivity.
  - rewrite !(bool_decide_eq_false_2 _ Hesc).
    change (remove_dups _) with ["rag_responder"].
    rewrite (pregel_loop_single _ _ _ _ _ _ wf_rag_responder wf_channels_NoDup).
    rewrite (rag_responder_node_run _ (VStr q)) by reflexivity.
    destruct (get_rag_chain _ _) as [[response|e] g4]; [|done].
    cbv zeta.
    rewrite apply_writes_insert1 by (simpl; set_solver).
    rewrite successors_terminal by auto.
    change (remove_dups _) with (@nil string).
    rewrite pregel_loop_nil. reflexivity.
Qed.

End WorkflowFacts.

(** ** Properties of the router *)

(** C5. The routing predicate is a function of the category field alone:
    two workflow states with the same category entry are routed to the same
    branch, whatever their query text and other fields are. *)
Theorem route_depends_on_category_only (s1 s2 : AgentState) :
  s1 !! "category" = s2 !! "category" →
  route_after_classification s1 = route_after_classification s2.
Proof.
  intros Hcat. unfold route_after_classification, dict_get. by rewrite Hcat.
Qed.

(** C10. Routing is total and defaults to the RAG responder: on every
    workflow state the router answers one of its two branches, it answers
    "escalation" exactly when the category entry is the string ESCALATE, a
    missing category is read as the empty string, and a missing or empty
    category is routed to "rag_responder". *)
Theorem route_is_total_and_defaults_to_rag (st : AgentState) :
  (route_after_classification st = "escalation"
   ∨ route_after_classification st = "rag_responder")
  ∧ route_after_classification st
    = (if bool_decide (st !! "category" = Some (VStr (value ESCALATE)))
       then "escalation" else "rag_responder")
  ∧ dict_get (delete "category" st) "category" (VStr []) = VStr []
  ∧ route_after_classification (delete "category" st) = "rag_responder"
  ∧ route_after_classification (<["category" := VStr []]> st) = "rag_responder".
Proof.
  assert (Hroute : ∀ s : AgentState,
    route_after_classification s
    = (if bool_decide (s !! "category" = Some (VStr (value ESCALATE)))
       then "escalation" else "rag_responder")).
  { intros s. unfold route_after_classification, dict_get, py_eq.
    destruct (s !! "category") as [v|] eqn:Hc.
    - destruct (decide (v = VStr (value ESCALATE))) as [->|Hne].
      + by rewrite !bool_decide_eq_true_2.
      + rewrite !bool_decide_eq_false_2; [done | congruence | done].
    - rewrite !bool_decide_eq_false_2; [done | congruence | discriminate]. }
  split_and!.
  - rewrite Hroute. destruct (bool_decide _); auto.
  - apply Hroute.
  - unfold dict_get. by rewrite lookup_delete_eq.
  - rewrite Hroute, lookup_delete_eq. by rewrite bool_decide_eq_false_2.
  - rewrite Hroute, lookup_insert_eq.
    rewrite bool_decide_eq_false_2; [done | discriminate].
Qed.

(** ** Properties of the workflow *)

Lemma nodes_run_app (tr1 tr2 : list event) :
  nodes_run (tr1 ++ tr2) = nodes_run tr1 ++ nodes_run tr2.
Proof. apply omap_app. Qed.

Lemma states_seen_app (tr1 tr2 : list event) :
  states_seen (tr1 ++ tr2) = states_seen tr1 ++ states_seen tr2.
Proof. apply omap_app. Qed.

Lemma external_calls_app (tr1 tr2 : list event) :
  external_calls (tr1 ++ tr2) = external_calls tr1 ++ external_calls tr2.
Proof. apply List.filter_app. Qed.

Lemma valid_categories_spec (label : str) :
  label ∈ valid_categories ↔ ∃ cat, label = value cat.
Proof.
  unfold valid_categories, QueryCategory_members. cbn [fmap list_fmap list_to_set].
  rewrite !elem_of_union, !elem_of_singleton, elem_of_empty. split.
  - intros [H|[H|[H|[H|[]]]]]; eauto.
  - intros [[] ->]; auto.
Qed.

Section Claims.
Variable isspace : N -> bool.
Variable toupper : N -> list N.
Variable classifier_llm : list event -> str -> result str.
Variable rag_llm : list event -> str -> result str.
Variable vector_index : list event -> pyval -> Z -> result (list Document).

Local Abbreviation cnode := (classifier_node isspace toupper classifier_llm).
Local Abbreviation rnode := (rag_responder_node rag_llm vector_index).
Local Abbreviation norm := (normalize isspace toupper).
Local Abbreviation rag_invoke := (invoke rag_llm vector_index).
Local Abbreviation run_query :=
  (process_query isspace toupper classifier_llm rag_llm vector_index).

(** The category the classifier stores: the normalized output when it is
    the value of a member of the enum, [GENERAL] otherwise. *)
Lemma normalize_spec (raw : str) :
  let label := upper toupper (strip isspace raw) in
  (∀ cat, label = value cat → norm raw = value cat)
  ∧ ((∀ cat, label ≠ value cat) → norm raw = value GENERAL).
Proof.
  cbv zeta. unfold normalize. split.
  - intros cat Hcat. rewrite bool_decide_eq_false_2; [done|].
    intros Hnot. apply Hnot. rewrite valid_categories_spec. eauto.
  - intros Hnone. rewrite bool_decide_eq_true_2; [done|].
    rewrite valid_categories_spec. intros [cat Hcat]. by apply (Hnone cat).
Qed.

Lemma respond_history_trace q c g :
  trace (logged (EvNode "rag_responder")
           (logged (EvState (classified_state q c))
              (logged (EvClassify (CLASSIFIER_PROMPT q))
                 (logged (EvNode "classifier") (compiled g)))))
  = respond_history g q c.
Proof.
  unfold respond_history, classify_history. simpl. by rewrite <- !app_assoc.
Qed.

Lemma respond_singleton q c g :
  singleton (logged (EvNode "rag_responder")
               (logged (EvState (classified_state q c))
                  (logged (EvClassify (CLASSIFIER_PROMPT q))
                     (logged (EvNode "classifier") (compiled g)))))
  = singleton g.
Proof. reflexivity. Qed.

(** C1. In every record [process_query] returns, [needs_escalation] is
    [True] if and only if [category] is "ESCALATE"; this holds whatever the
    classification model, the generation model and the index answer. *)
Theorem needs_escalation_iff_escalate (q : str) (g : globals)
    (r : AgentState) (g' : globals) :
  run_query q g = (Ok r, g') →
  ∃ (c : str) (b : bool),
    r !! "category" = Some (VStr c)
    ∧ r !! "needs_escalation" = Some (VBool b)
    ∧ (b = true ↔ c = value ESCALATE).
Proof.
  rewrite process_query_run. cbv zeta.
  destruct (classifier_llm _ _) as [raw|e]; [|discriminate].
  destruct (decide (norm raw = value ESCALATE)) as [Hesc|Hesc].
  - rewrite (bool_decide_eq_true_2 _ Hesc). intros [= <- _].
    exists (norm raw), true. by split_and!.
  - rewrite (bool_decide_eq_false_2 _ Hesc).
    destruct (get_rag_chain _ _) as [[response|e] g4]; [|discriminate].
    intros [= <- _]. exists (norm raw), false. split_and!; [done..|].
    split; [discriminate | done].
Qed.

(** C2. The category of the record [process_query] returns is decided by
    the raw output of the classification model of that run: stripped and
    upper-cased, if it is the value of one of the four members of the enum
    the category is that value, and otherwise the category is "GENERAL". *)
Theorem category_is_normalized_label (q : str) (g : globals)
    (r : AgentState) (g' : globals) :
  run_query q g = (Ok r, g') →
  ∃ raw,
    classifier_llm (classify_history g) (CLASSIFIER_PROMPT q) = Ok raw
    ∧ (∀ cat, upper toupper (strip isspace raw) = value cat →
         r !! "category" = Some (VStr (value cat)))
    ∧ ((∀ cat, upper toupper (strip isspace raw) ≠ value cat) →
         r !! "category" = Some (VStr (value GENERAL))).
Proof.
  rewrite process_query_run. cbv zeta.
  change (trace (logged (EvNode "classifier") (compiled g)))
    with (classify_history g).
  destruct (classifier_llm _ _) as [raw|e]; [|discriminate].
  intros Hrun. exists raw. split; [done|].
  assert (Hcat : r !! "category" = Some (VStr (norm raw))).
  { destruct (bool_decide (norm raw = value ESCALATE)).
    - by injection Hrun as <- _.
    - destruct (get_rag_chain _ _) as [[response|e] g4]; [|discriminate].
      by injection Hrun as <- _. }
  rewrite Hcat. destruct (normalize_spec raw) as [Hvalid Hother]. split.
  - intros cat Hl. by rewrite (Hvalid cat Hl).
  - intros Hl. by rewrite (Hother Hl).
Qed.

(** C3. Whatever the classification model answers, exactly one of the two
    terminal nodes runs in an invocation: the nodes that run are the
    classifier followed by one node, which is the RAG responder or the
    escalation node (also when the RAG responder then raises). *)
Theorem exactly_one_terminal_node (q : str) (g : globals) (raw : str) :
  classifier_llm (classify_history g) (CLASSIFIER_PROMPT q) = Ok raw →
  ∃ terminal,
    (terminal = "rag_responder" ∨ terminal = "escalation")
    ∧ nodes_run (trace (snd (run_query q g)))
      = nodes_run (trace g) ++ ["classifier"; terminal].
Proof.
  intros Hraw. rewrite process_query_run. cbv zeta.
  change (trace (logged (EvNode "classifier") (compiled g)))
    with (classify_history g).
  rewrite Hraw.
  destruct (bool_decide (norm raw = value ESCALATE)).
  - exists "escalation". split; [auto|]. simpl.
    rewrite !nodes_run_app. simpl. by rewrite !app_nil_r, <- !app_assoc.
  - exists "rag_responder". split; [auto|].
    rewrite get_rag_chain_invoke_run. cbv zeta.
    rewrite respond_history_trace.
    destruct (vector_index _ _ _) as [docs|e].
    + destruct (rag_llm _ _) as [response|e]; simpl;
        unfold respond_history, classify_history;
        rewrite !nodes_run_app; simpl; by rewrite !app_nil_r, <- !app_assoc.
    + simpl. unfold respond_history, classify_history.
      rewrite !nodes_run_app. simpl. by rewrite !app_nil_r, <- !app_assoc.
Qed.

(** When the classification call raises, the classifier is the only node
    that ran. *)
Lemma classifier_failure_runs_no_terminal_node (q : str) (g : globals) (e : exn) :
  classifier_llm (classify_history g) (CLASSIFIER_PROMPT q) = Raise e →
  nodes_run (trace (snd (run_query q g))) = nodes_run (trace g) ++ ["classifier"].
Proof.
  intros Hraw. rewrite process_query_run. cbv zeta.
  change (trace (logged (EvNode "classifier") (compiled g)))
    with (classify_history g).
  rewrite Hraw. simpl. rewrite !nodes_run_app. simpl.
  by rewrite !app_nil_r.
Qed.

(** C4. The escalation node is a total function of its input state with no
    call and no attribute access, and it stores the fixed template as the
    response. Whenever the classified category is "ESCALATE",
    [process_query] returns (it cannot raise), the response of the record
    is the template, the only call made is the classification call, and
    the RAG chain singleton is left as it was. *)
Theorem escalation_response_is_template (q : str) (g : globals) (raw : str) :
  classifier_llm (classify_history g) (CLASSIFIER_PROMPT q) = Ok raw →
  norm raw = value ESCALATE →
  (∀ st : AgentState,
     escalation_node st !! "response" = Some (VStr ESCALATION_MESSAGE))
  ∧ ∃ r g',
      run_query q g = (Ok r, g')
      ∧ r !! "category" = Some (VStr (value ESCALATE))
      ∧ r !! "response" = Some (VStr ESCALATION_MESSAGE)
      ∧ external_calls (trace g')
        = external_calls (trace g) ++ [EvClassify (CLASSIFIER_PROMPT q)]
      ∧ nodes_run (trace g') = nodes_run (trace g) ++ ["classifier"; "escalation"]
      ∧ _rag_chain_instance g' = _rag_chain_instance g.
Proof.
  intros Hraw Hesc. split.
  { intros st. unfold escalation_node.
    rewrite lookup_insert_ne by done. apply lookup_insert_eq. }
  rewrite process_query_run. cbv zeta.
  change (trace (logged (EvNode "classifier") (compiled g)))
    with (classify_history g).
  rewrite Hraw, (bool_decide_eq_true_2 _ Hesc), Hesc.
  eexists _, _. split; [reflexivity|]. split_and!; try done.
  - simpl. rewrite !external_calls_app. simpl. by rewrite !app_nil_r.
  - simpl. rewrite !nodes_run_app. simpl. by rewrite !app_nil_r, <- !app_assoc.
Qed.

(** C7. When the index answers with no passage, the context block is the
    empty string and the chain goes on to the generation call: what
    [invoke] returns or raises is what the generation model returns or
    raises on the prompt with the empty context, so it returns a string
    whenever that call does. *)
Theorem empty_retrieval_still_generates (query : pyval) (self : RAGChain)
    (tr : list event) :
  vector_index tr query (chain_k self) = Ok [] →
  let tr1 := tr ++ [EvRetrieve (chain_k self) query] in
  let prompt := SYSTEM_PROMPT [] (py_str query) in
  _format_docs [] = []
  ∧ fst (rag_invoke query (self, tr)) = rag_llm tr1 prompt
  ∧ snd (snd (rag_invoke query (self, tr))) = tr1 ++ [EvGenerate prompt]
  ∧ (∀ answer, rag_llm tr1 prompt = Ok answer →
       fst (rag_invoke query (self, tr)) = Ok answer).
Proof.
  intros Hempty. cbv zeta. rewrite invoke_run. cbv zeta. rewrite Hempty.
  by split_and!.
Qed.

(** C8. A failed model call fails the whole invocation with the same
    exception and no record. If the classification call raises [e],
    [process_query] raises [e] after that single call and no terminal node
    runs. If the category is not "ESCALATE" and the similarity search or
    the generation call raises [e], [process_query] raises [e]; in the
    latter case the generation model was called once. *)
Theorem model_failure_propagates (q : str) (g : globals) (e : exn) :
  (classifier_llm (classify_history g) (CLASSIFIER_PROMPT q) = Raise e →
     fst (run_query q g) = Raise e
     ∧ trace (snd (run_query q g))
       = classify_history g ++ [EvClassify (CLASSIFIER_PROMPT q)])
  ∧ (∀ raw,
       classifier_llm (classify_history g) (CLASSIFIER_PROMPT q) = Ok raw →
       norm raw ≠ value ESCALATE →
       vector_index (respond_history g q (norm raw)) (VStr q)
         (chain_k (singleton g)) = Raise e →
       fst (run_query q g) = Raise e)
  ∧ (∀ raw docs,
       classifier_llm (classify_history g) (CLASSIFIER_PROMPT q) = Ok raw →
       norm raw ≠ value ESCALATE →
       let k := chain_k (singleton g) in
       let h := respond_history g q (norm raw) in
       let prompt := SYSTEM_PROMPT (_format_docs docs) q in
       vector_index h (VStr q) k = Ok docs →
       rag_llm (h ++ [EvRetrieve k (VStr q)]) prompt = Raise e →
       fst (run_query q g) = Raise e
       ∧ trace (snd (run_query q g))
         = h ++ [EvRetrieve k (VStr q); EvGenerate prompt]).
Proof.
  split_and!.
  - intros Hraw. rewrite process_query_run. cbv zeta.
    change (trace (logged (EvNode "classifier") (compiled g)))
      with (classify_history g).
    by rewrite Hraw.
  - intros raw Hraw Hesc Hidx. rewrite process_query_run. cbv zeta.
    change (trace (logged (EvNode "classifier") (compiled g)))
      with (classify_history g).
    rewrite Hraw, (bool_decide_eq_false_2 _ Hesc).
    rewrite get_rag_chain_invoke_run. cbv zeta.
    rewrite respond_history_trace, respond_singleton. by rewrite Hidx.
  - intros raw docs Hraw Hesc k h prompt Hidx Hgen.
    rewrite process_query_run. cbv zeta.
    change (trace (logged (EvNode "classifier") (compiled g)))
      with (classify_history g).
    rewrite Hraw, (bool_decide_eq_false_2 _ Hesc).
    rewrite get_rag_chain_invoke_run. cbv zeta.
    rewrite respond_history_trace, respond_singleton. fold k h. rewrite Hidx.
    cbn [py_str]. fold prompt. rewrite Hgen. simpl.
    by rewrite <- app_assoc.
Qed.

(** The other direction: when the classification call answers and, off the
    escalation path, the search and the generation call answer too,
    [process_query] returns a record. *)
Lemma process_query_returns (q : str) (g : globals) (raw : str)
    (docs : list Document) (answer : str) :
  classifier_llm (classify_history g) (CLASSIFIER_PROMPT q) = Ok raw →
  norm raw ≠ value ESCALATE →
  let k := chain_k (singleton g) in
  let h := respond_history g q (norm raw) in
  vector_index h (VStr q) k = Ok docs →
  rag_llm (h ++ [EvRetrieve k (VStr q)]) (SYSTEM_PROMPT (_format_docs docs) q)
    = Ok answer →
  fst (run_query q g) = Ok (result_record q (norm raw) answer false).
Proof.
  intros Hraw Hesc k h Hidx Hgen. rewrite process_query_run. cbv zeta.
  change (trace (logged (EvNode "classifier") (compiled g)))
    with (classify_history g).
  rewrite Hraw, (bool_decide_eq_false_2 _ Hesc).
  rewrite get_rag_chain_invoke_run. cbv zeta.
  rewrite respond_history_trace, respond_singleton. fold k h.
  rewrite Hidx. cbn [py_str]. by rewrite Hgen.
Qed.

(** C9, as the code has it. No node changes the input field: the classifier
    changes at most [category] and [needs_escalation], the RAG responder at
    most [response], and the escalation node sets [response] and sets
    [needs_escalation] to [True], leaving every other key as it was. In a
    run of [process_query] every state reached, and the record returned,
    carries the original query as [input]; the state after the classifier
    differs from the initial state at most in [category] and
    [needs_escalation], and the record returned differs from the state
    after the classifier at most in [response]. *)
Theorem input_is_never_overwritten :
  (∀ (st : AgentState) s st' s',
     cnode st s = (Ok st', s') →
     ∀ k, k ≠ "category" → k ≠ "needs_escalation" → st' !! k = st !! k)
  ∧ (∀ (st : AgentState) s st' s',
       rnode st s = (Ok st', s') →
       ∀ k, k ≠ "response" → st' !! k = st !! k)
  ∧ (∀ st : AgentState,
       escalation_node st !! "needs_escalation" = Some (VBool true)
       ∧ ∀ k, k ≠ "response" → k ≠ "needs_escalation" →
           escalation_node st !! k = st !! k)
  ∧ (∀ q g, ∃ tail,
       trace (snd (run_query q g)) = trace g ++ tail
       ∧ Forall (fun st : AgentState => st !! "input" = Some (VStr q))
           (states_seen tail))
  ∧ (∀ q g r g',
       run_query q g = (Ok r, g') →
       r !! "input" = Some (VStr q)
       ∧ ∃ tail (st1 : AgentState),
           trace g' = trace g ++ tail
           ∧ states_seen tail = [st1; r]
           ∧ (∀ k, k ≠ "category" → k ≠ "needs_escalation" →
                st1 !! k = initial_state q !! k)
           ∧ (∀ k, k ≠ "response" → r !! k = st1 !! k)).
Proof.
  split_and!.
  - intros st s st' s' Hrun k Hk1 Hk2.
    unfold classifier_node, getitem, bind in Hrun.
    destruct (st !! "input") as [v|]; [|discriminate]. simpl in Hrun.
    unfold classifier_chain_invoke in Hrun.
    destruct (classifier_llm _ _); [|discriminate].
    injection Hrun as <- _. by rewrite !lookup_insert_ne.
  - intros st s st' s' Hrun k Hk.
    unfold rag_responder_node, getitem, bind in Hrun.
    destruct (st !! "input") as [v|]; [|discriminate]. simpl in Hrun.
    destruct (get_rag_chain _ _) as [[response|e] s1]; [|discriminate].
    injection Hrun as <- _. by rewrite lookup_insert_ne.
  - intros st. unfold escalation_node. split.
    + apply lookup_insert_eq.
    + intros k Hk1 Hk2. by rewrite !lookup_insert_ne.
  - intros q g. rewrite process_query_run. cbv zeta.
    destruct (classifier_llm _ _) as [raw|e].
    + destruct (bool_decide (norm raw = value ESCALATE)).
      * eexists. split; [simpl; rewrite <- !app_assoc; reflexivity|].
        simpl. by repeat constructor.
      * rewrite get_rag_chain_invoke_run. cbv zeta.
        destruct (vector_index _ _ _) as [docs|e];
          [destruct (rag_llm _ _) as [response|e]|];
          (eexists; split; [simpl; rewrite <- !app_assoc; reflexivity|]);
          simpl; by repeat constructor.
    + eexists. split; [simpl; rewrite <- !app_assoc; reflexivity|].
      simpl. constructor.
  - intros q g r g'. rewrite process_query_run. cbv zeta.
    destruct (classifier_llm _ _) as [raw|e]; [|discriminate].
    destruct (bool_decide (norm raw = value ESCALATE)) eqn:Hesc.
    + intros [= <- <-]. split; [done|].
      eexists _, (classified_state q (norm raw)). split_and!.
      * simpl. rewrite <- !app_assoc. reflexivity.
      * reflexivity.
      * intros k Hk1 Hk2. unfold classified_state, result_record, initial_state.
        rewrite !lookup_insert. by repeat case_decide.
      * intros k Hk. unfold classified_state, result_record. rewrite Hesc.
        rewrite !lookup_insert. by repeat case_decide.
    + rewrite get_rag_chain_invoke_run. cbv zeta.
      destruct (vector_index _ _ _) as [docs|e]; [|discriminate].
      destruct (rag_llm _ _) as [response|e]; [|discriminate].
      intros [= <- <-]. split; [done|].
      eexists _, (classified_state q (norm raw)). split_and!.
      * simpl. rewrite <- !app_assoc. reflexivity.
      * reflexivity.
      * intros k Hk1 Hk2. unfold classified_state, result_record, initial_state.
        rewrite !lookup_insert. by repeat case_decide.
      * intros k Hk. unfold classified_state, result_record. rewrite Hesc.
        rewrite !lookup_insert. by repeat case_decide.
Qed.

End Claims.

(** ** Retrieval with an explicit [k] *)

Section Retrieval.
Variable vector_index : list event -> pyval -> Z -> result (list Document).

(** On an object without a retriever, [retrieve_context(query, k)] is the
    answer of the index to a search for [k] passages. *)
Lemma retrieve_context_first_use (query : pyval) (k : Z) (self : RAGChain)
    (tr : list event) :
  _retriever self = None →
  fst (retrieve_context vector_index query k (self, tr)) = vector_index tr query k.
Proof.
  intros Hnone. rewrite retrieve_context_run. unfold retriever_k.
  by rewrite Hnone.
Qed.

(** Once the object has a retriever, built with [k0], the [k] passed to
    [retrieve_context] is not used: the search asks for [k0] passages. *)
Lemma retrieve_context_cached (query : pyval) (k k0 : Z) (self : RAGChain)
    (tr : list event) :
  _retriever self = Some k0 →
  retrieve_context vector_index query k (self, tr)
  = (vector_index tr query k0, (self, tr ++ [EvRetrieve k0 query])).
Proof.
  intros Hsome. rewrite retrieve_context_run.
  unfold retriever_k, with_retriever. by rewrite Hsome.
Qed.

End Retrieval.

(** C6, at the failing input. On a new [RAGChain], [retrieve_context] with
    [k = 1] returns one passage. On the same object after it has answered a
    query (which built the retriever with the default [k = 4]),
    [retrieve_context] with [k = 1] asks the index for four passages and
    returns all three stored ones. *)
Theorem retrieve_context_ignores_k_once_cached :
  fst (retrieve_context (Demo.index_of Demo.passages)
         (VStr Demo.price_query) 1 Demo.new_chain)
  = Ok (firstn 1 Demo.passages)
  ∧ fst (retrieve_context (Demo.index_of Demo.passages)
           (VStr Demo.price_query) 1 Demo.served_chain)
    = Ok Demo.passages
  ∧ last (snd (snd (retrieve_context (Demo.index_of Demo.passages)
                      (VStr Demo.price_query) 1 Demo.served_chain)))
    = Some (EvRetrieve 4 (VStr Demo.price_query))
  ∧ length Demo.passages = 3.
Proof. by vm_compute. Qed.

(** ** The statements at concrete inputs *)

(** C9, as the claim has it, fails: the escalation node, a terminal node,
    changes [needs_escalation] on a state where it is [False]. *)
Lemma escalation_node_writes_needs_escalation :
  let st := initial_state Demo.manager_query in
  st !! "needs_escalation" = Some (VBool false)
  ∧ escalation_node st !! "needs_escalation" = Some (VBool true)
  ∧ ¬ (∀ (st : AgentState) (k : string),
         k ≠ "response" → escalation_node st !! k = st !! k).
Proof.
  cbv zeta. split_and!; [reflexivity..|].
  intros Hframe.
  specialize (Hframe (initial_state Demo.manager_query) "needs_escalation").
  discriminate Hframe. discriminate.
Qed.

(** C1 on the run of the manager query: the classifier answers
    [escalate_answer] and both other collaborators are down. *)
Lemma needs_escalation_iff_escalate_witness :
  Demo.run Demo.escalate_answer Demo.model_down Demo.passages
    Demo.manager_query Demo.fresh
  = (Ok Demo.escalated_record, Demo.escalated_globals)
  ∧ ∃ (c : str) (b : bool),
      Demo.escalated_record !! "category" = Some (VStr c)
      ∧ Demo.escalated_record !! "needs_escalation" = Some (VBool b)
      ∧ (b = true ↔ c = value ESCALATE).
Proof.
  assert (Hrun : Demo.run Demo.escalate_answer Demo.model_down Demo.passages
                   Demo.manager_query Demo.fresh
                 = (Ok Demo.escalated_record, Demo.escalated_globals))
    by (vm_compute; reflexivity).
  split; [exact Hrun|].
  exact (needs_escalation_iff_escalate _ _ _ _ _ _ _ _ _ Hrun).
Defined.

(** C2 on the run of the price query: the classifier answers
    [products_answer], stored as PRODUCTS. *)
Lemma category_is_normalized_label_witness :
  Demo.run Demo.products_answer (Demo.generator_says Demo.generated_answer)
    Demo.passages Demo.price_query Demo.fresh
  = (Ok Demo.answered_record, Demo.answered_globals)
  ∧ ∃ raw,
      Demo.classifier_says Demo.products_answer
        (classify_history Demo.fresh) (CLASSIFIER_PROMPT Demo.price_query)
      = Ok raw
      ∧ (∀ cat, upper ascii_toupper (strip ascii_isspace raw) = value cat →
           Demo.answered_record !! "category" = Some (VStr (value cat)))
      ∧ ((∀ cat, upper ascii_toupper (strip ascii_isspace raw) ≠ value cat) →
           Demo.answered_record !! "category" = Some (VStr (value GENERAL))).
Proof.
  assert (Hrun : Demo.run Demo.products_answer
                   (Demo.generator_says Demo.generated_answer)
                   Demo.passages Demo.price_query Demo.fresh
                 = (Ok Demo.answered_record, Demo.answered_globals))
    by (vm_compute; reflexivity).
  split; [exact Hrun|].
  exact (category_is_normalized_label _ _ _ _ _ _ _ _ _ Hrun).
Defined.

(** C3 on a run whose RAG responder raises: it still is the one terminal
    node that ran. *)
Lemma exactly_one_terminal_node_witness :
  Demo.classifier_says Demo.products_answer
    (classify_history Demo.fresh) (CLASSIFIER_PROMPT Demo.price_query)
  = Ok Demo.products_answer
  ∧ ∃ terminal,
      (terminal = "rag_responder" ∨ terminal = "escalation")
      ∧ nodes_run
          (trace (snd (Demo.run Demo.products_answer Demo.model_down
                         Demo.passages Demo.price_query Demo.fresh)))
        = nodes_run (trace Demo.fresh) ++ ["classifier"; terminal].
Proof.
  split; [reflexivity|].
  apply (exactly_one_terminal_node ascii_isspace ascii_toupper
           (Demo.classifier_says Demo.products_answer) Demo.model_down
           (Demo.index_of Demo.passages) Demo.price_query Demo.fresh
           Demo.products_answer).
  reflexivity.
Defined.

(** C4 on the run of the manager query with the generation model down. *)
Lemma escalation_response_is_template_witness :
  Demo.classifier_says Demo.escalate_answer
    (classify_history Demo.fresh) (CLASSIFIER_PROMPT Demo.manager_query)
  = Ok Demo.escalate_answer
  ∧ normalize ascii_isspace ascii_toupper Demo.escalate_answer = value ESCALATE
  ∧ (∀ st : AgentState,
       escalation_node st !! "response" = Some (VStr ESCALATION_MESSAGE))
  ∧ ∃ r g',
      Demo.run Demo.escalate_answer Demo.model_down Demo.passages
        Demo.manager_query Demo.fresh = (Ok r, g')
      ∧ r !! "category" = Some (VStr (value ESCALATE))
      ∧ r !! "response" = Some (VStr ESCALATION_MESSAGE)
      ∧ external_calls (trace g')
        = external_calls (trace Demo.fresh)
          ++ [EvClassify (CLASSIFIER_PROMPT Demo.manager_query)]
      ∧ nodes_run (trace g')
        = nodes_run (trace Demo.fresh) ++ ["classifier"; "escalation"]
      ∧ _rag_chain_instance g' = _rag_chain_instance Demo.fresh.
Proof.
  assert (Hnorm : normalize ascii_isspace ascii_toupper Demo.escalate_answer
                  = value ESCALATE) by (vm_compute; reflexivity).
  split; [reflexivity|]. split; [exact Hnorm|].
  exact (escalation_response_is_template ascii_isspace ascii_toupper
           (Demo.classifier_says Demo.escalate_answer) Demo.model_down
           (Demo.index_of Demo.passages) Demo.manager_query Demo.fresh
           Demo.escalate_answer eq_refl Hnorm).
Defined.

(** C5 on two initial states that differ in their query. *)
Lemma route_depends_on_category_only_witness :
  initial_state Demo.manager_query !! "category"
  = initial_state Demo.price_query !! "category"
  ∧ route_after_classification (initial_state Demo.manager_query)
    = route_after_classification (initial_state Demo.price_query).
Proof.
  assert (Hcat : initial_state Demo.manager_query !! "category"
                 = initial_state Demo.price_query !! "category")
    by reflexivity.
  split; [exact Hcat|].
  exact (route_depends_on_category_only _ _ Hcat).
Defined.

(** C7 on a new chain over an empty index. *)
Lemma empty_retrieval_still_generates_witness :
  Demo.index_of [] [] (VStr Demo.price_query) (chain_k (fst Demo.new_chain))
  = Ok []
  ∧ fst (invoke (Demo.generator_says Demo.generated_answer) (Demo.index_of [])
           (VStr Demo.price_query) Demo.new_chain)
    = Ok Demo.generated_answer.
Proof.
  assert (Hempty : Demo.index_of [] [] (VStr Demo.price_query)
                     (chain_k (fst Demo.new_chain)) = Ok [])
    by reflexivity.
  split; [exact Hempty|].
  destruct (empty_retrieval_still_generates
              (Demo.generator_says Demo.generated_answer) (Demo.index_of [])
              (VStr Demo.price_query) (fst Demo.new_chain) [] Hempty)
    as (_ & _ & _ & Hanswer).
  exact (Hanswer Demo.generated_answer eq_refl).
Defined.

(** C8 on a run whose classification call raises and on a run whose
    generation call raises. *)
Lemma model_failure_propagates_witness :
  (Demo.model_down (classify_history Demo.fresh)
     (CLASSIFIER_PROMPT Demo.price_query)
   = Raise (ExternalError (lit "503 Service Unavailable"))
   ∧ fst (process_query ascii_isspace ascii_toupper Demo.model_down
            (Demo.generator_says Demo.generated_answer)
            (Demo.index_of Demo.passages) Demo.price_query Demo.fresh)
     = Raise (ExternalError (lit "503 Service Unavailable")))
  ∧ (normalize ascii_isspace ascii_toupper Demo.products_answer ≠ value ESCALATE
     ∧ fst (Demo.run Demo.products_answer Demo.model_down Demo.passages
              Demo.price_query Demo.fresh)
       = Raise (ExternalError (lit "503 Service Unavailable"))).
Proof.
  split.
  - split; [reflexivity|].
    apply (proj1 (model_failure_propagates ascii_isspace ascii_toupper
                    Demo.model_down (Demo.generator_says Demo.generated_answer)
                    (Demo.index_of Demo.passages) Demo.price_query Demo.fresh
                    (ExternalError (lit "503 Service Unavailable")))).
    reflexivity.
  - assert (Hne : normalize ascii_isspace ascii_toupper Demo.products_answer
                  ≠ value ESCALATE) by (vm_compute; discriminate).
    split; [exact Hne|].
    apply (proj2 (proj2 (model_failure_propagates ascii_isspace ascii_toupper
                    (Demo.classifier_says Demo.products_answer) Demo.model_down
                    (Demo.index_of Demo.passages) Demo.price_query Demo.fresh
                    (ExternalError (lit "503 Service Unavailable"))))
             Demo.products_answer Demo.passages eq_refl Hne).
    + vm_compute. reflexivity.
    + reflexivity.
Defined.

(** C9 on the run of the price query. *)
Lemma input_is_never_overwritten_witness :
  Demo.run Demo.products_answer (Demo.generator_says Demo.generated_answer)
    Demo.passages Demo.price_query Demo.fresh
  = (Ok Demo.answered_record, Demo.answered_globals)
  ∧ Demo.answered_record !! "input" = Some (VStr Demo.price_query).
Proof.
  assert (Hrun : Demo.run Demo.products_answer
                   (Demo.generator_says Demo.generated_answer)
                   Demo.passages Demo.price_query Demo.fresh
                 = (Ok Demo.answered_record, Demo.answered_globals))
    by (vm_compute; reflexivity).
  split; [exact Hrun|].
  destruct (input_is_never_overwritten ascii_isspace ascii_toupper
              (Demo.classifier_says Demo.products_answer)
              (Demo.generator_says Demo.generated_answer)
              (Demo.index_of Demo.passages))
    as (_ & _ & _ & _ & Hrecord).
  exact (proj1 (Hrecord _ _ _ _ Hrun)).
Defined.

(** ** More about the RAG chain *)

Lemma join_app (sep : str) (ps qs : list str) :
  ps ≠ [] → qs ≠ [] →
  join sep (ps ++ qs) = join sep ps ++ sep ++ join sep qs.
Proof.
  intros Hps Hqs. induction ps as [|p ps IH]; [done|].
  destruct ps as [|p' ps].
  - simpl. by destruct qs.
  - change (join sep ((p :: p' :: ps) ++ qs))
      with (p ++ sep ++ join sep ((p' :: ps) ++ qs)).
    rewrite IH by done.
    change (join sep (p :: p' :: ps)) with (p ++ sep ++ join sep (p' :: ps)).
    by rewrite <- !app_assoc.
Qed.

(** X1. The context block of two non-empty batches of passages is the two
    context blocks with one separator between them: passages are separated,
    never preceded or followed, by the separator. *)
Theorem format_docs_app (docs1 docs2 : list Document) :
  docs1 ≠ [] → docs2 ≠ [] →
  _format_docs (docs1 ++ docs2)
  = _format_docs docs1 ++ DOC_SEPARATOR ++ _format_docs docs2.
Proof.
  intros H1 H2. unfold _format_docs. rewrite fmap_app.
  apply join_app; by destruct docs1, docs2.
Qed.

(** X2. The length of the context block is the total length of the passage
    texts plus seven code points of separator between consecutive
    passages. *)
Theorem format_docs_length (docs : list Document) :
  length (_format_docs docs)
  = sum_list (length ∘ page_content <$> docs) + 7 * (length docs - 1).
Proof.
  unfold _format_docs. induction docs as [|d docs IH]; [done|].
  destruct docs as [|d' docs].
  - simpl. lia.
  - change (join ?s (page_content <$> d :: d' :: docs))
      with (page_content d ++ s ++ join s (page_content <$> d' :: docs)).
    rewrite !length_app, IH. simpl. lia.
Qed.

Section ChainFacts.
Variable rag_llm : list event -> str -> result str.
Variable vector_index : list event -> pyval -> Z -> result (list Document).

Local Abbreviation rag_invoke := (invoke rag_llm vector_index).
Local Abbreviation rag_retrieve := (retrieve_context vector_index).

(** X3. The first [k] wins: [get_retriever(k1)] followed by
    [get_retriever(k2)] returns the retriever the first call returned and
    leaves the object as the first call left it, whatever [k2] is. *)
Theorem get_retriever_first_k_wins (k1 k2 : Z) (self : RAGChain) (tr : list event) :
  bind (get_retriever k1) (fun _ => get_retriever k2) (self, tr)
  = get_retriever k1 (self, tr).
Proof.
  unfold bind. rewrite !get_retriever_run.
  unfold retriever_k, with_retriever.
  destruct (_retriever self) as [k0|] eqn:Hr; cbn; by rewrite ?Hr.
Qed.

(** X4. A new object is coherent and every method keeps the caches of a
    coherent object coherent: a cached chain always sits on the cached
    retriever, with the same [k]. *)
Theorem methods_keep_caches_coherent (self : RAGChain) (tr : list event)
    (query : pyval) (k : Z) :
  coherent self = true →
  coherent (RAGChain_init (chroma_path self) (collection_name self)) = true
  ∧ coherent (fst (snd (get_vectorstore (self, tr)))) = true
  ∧ coherent (fst (snd (_get_llm (self, tr)))) = true
  ∧ coherent (fst (snd (get_retriever k (self, tr)))) = true
  ∧ coherent (fst (snd (get_chain (self, tr)))) = true
  ∧ coherent (fst (snd (rag_invoke query (self, tr)))) = true
  ∧ coherent (fst (snd (rag_retrieve query k (self, tr)))) = true.
Proof.
  intros Hco.
  assert (Hretr : coherent (with_retriever k self) = true).
  { revert Hco. unfold coherent, with_retriever.
    destruct self as [p n vs [k0|] [kc|] llm]; cbn;
      repeat case_bool_decide; destruct vs, llm; cbn; congruence. }
  assert (Hchain : coherent (with_chain self) = true).
  { revert Hco. unfold coherent, with_chain, with_retriever, retriever_k.
    destruct self as [p n vs [k0|] [kc|] llm]; cbn;
      repeat case_bool_decide; destruct vs, llm; cbn; congruence. }
  split_and!.
  - reflexivity.
  - revert Hco. unfold coherent.
    destruct self as [p n vs [k0|] [kc|] llm]; cbn;
      repeat case_bool_decide; destruct vs, llm; cbn; congruence.
  - revert Hco. unfold coherent.
    destruct self as [p n vs [k0|] [kc|] llm]; cbn;
      repeat case_bool_decide; destruct vs, llm; cbn; congruence.
  - by rewrite get_retriever_run.
  - by rewrite get_chain_run.
  - rewrite invoke_run. cbv zeta.
    by destruct (vector_index tr query (chain_k self)).
  - by rewrite retrieve_context_run.
Qed.

(** X5. On a coherent object that has a chain, [retrieve_context] searches
    with the [k] of the chain, whatever [k] it is given. *)
Theorem retrieve_context_uses_chain_k (self : RAGChain) (tr : list event)
    (query : pyval) (k : Z) :
  coherent self = true →
  is_Some (_chain self) →
  rag_retrieve query k (self, tr)
  = (vector_index tr query (chain_k self),
     (self, tr ++ [EvRetrieve (chain_k self) query])).
Proof.
  intros Hco [kc Hkc]. unfold chain_k. rewrite Hkc.
  apply retrieve_context_cached.
  revert Hco. unfold coherent. rewrite Hkc.
  destruct (_retriever self) as [k0|], (_vectorstore self); cbn;
    try case_bool_decide; cbn; congruence.
Qed.

(** X6. A retrieval with an explicit [k] on an object that has no retriever
    yet fixes the [k] of every later answer: the chain that [invoke] then
    builds searches with that [k], not with the default 4. *)
Theorem retrieve_context_sets_k_of_invoke (self : RAGChain) (tr : list event)
    (q1 q2 : pyval) (k : Z) :
  _retriever self = None →
  _chain self = None →
  let after := snd (rag_retrieve q1 k (self, tr)) in
  snd after = tr ++ [EvRetrieve k q1]
  ∧ fst (rag_invoke q2 after)
    = match vector_index (snd after) q2 k with
      | Raise e => Raise e
      | Ok docs =>
          rag_llm (snd after ++ [EvRetrieve k q2])
            (SYSTEM_PROMPT (_format_docs docs) (py_str q2))
      end.
Proof.
  intros Hr Hc. cbv zeta. rewrite retrieve_context_run.
  unfold retriever_k, with_retriever. rewrite Hr. cbn [fst snd].
  split; [done|]. rewrite invoke_run. cbv zeta.
  unfold chain_k, retriever_k. cbn [_chain _retriever]. rewrite Hc.
  by destruct (vector_index _ q2 k).
Qed.

(** X7. When the similarity search raises, [invoke] raises the same
    exception, the generation model is not called, and the chain built for
    the call stays cached on the object. *)
Theorem invoke_retrieval_failure (self : RAGChain) (tr : list event)
    (query : pyval) (e : exn) :
  vector_index tr query (chain_k self) = Raise e →
  rag_invoke query (self, tr)
  = (Raise e, (with_chain self, tr ++ [EvRetrieve (chain_k self) query]))
  ∧ _chain (with_chain self) = Some (chain_k self).
Proof.
  intros Hidx. rewrite invoke_run. cbv zeta. rewrite Hidx.
  split; [done|]. unfold with_chain, chain_k.
  by destruct (_chain self) as [kc|] eqn:Hc; cbn; rewrite ?Hc.
Qed.

(** X8. Every answer through the singleton searches with the same [k]:
    [query_rag] leaves a singleton whose chain has the [k] the call itself
    searched with, and a second [query_rag] leaves the object unchanged. *)
Theorem query_rag_keeps_k (q1 q2 : pyval) (g : globals) :
  let g1 := snd (query_rag rag_llm vector_index q1 g) in
  let g2 := snd (query_rag rag_llm vector_index q2 g1) in
  _rag_chain_instance g1 = Some (with_chain (singleton g))
  ∧ chain_k (singleton g1) = chain_k (singleton g)
  ∧ _rag_chain_instance g2 = _rag_chain_instance g1.
Proof.
  cbv zeta. unfold query_rag.
  assert (Hidem : ∀ self, with_chain (with_chain self) = with_chain self).
  { intros self. unfold with_chain. by destruct (_chain self) eqn:Hc; cbn; rewrite ?Hc. }
  assert (Hk : ∀ self, chain_k (with_chain self) = chain_k self).
  { intros self. unfold chain_k, with_chain.
    by destruct (_chain self) eqn:Hc; cbn; rewrite ?Hc. }
  assert (Hinst : ∀ q s,
    _rag_chain_instance (snd (get_rag_chain (rag_invoke q) s))
    = Some (with_chain (singleton s))).
  { intros q s. rewrite get_rag_chain_invoke_run. cbv zeta.
    by destruct (vector_index _ _ _). }
  split_and!.
  - apply Hinst.
  - unfold singleton at 1. rewrite Hinst. apply Hk.
  - rewrite !Hinst. unfold singleton at 1. rewrite Hinst. by rewrite Hidem.
Qed.

End ChainFacts.

(** ** More about the nodes and a run of the workflow *)

Lemma label_prefix_free (cat cat' : QueryCategory) (extra : str) :
  value cat ++ extra = value cat' → extra = [].
Proof.
  intros Heq. destruct cat, cat'; vm_compute in Heq; by simplify_eq.
Qed.

Section MoreWorkflow.
Variable isspace : N -> bool.
Variable toupper : N -> list N.
Variable classifier_llm : list event -> str -> result str.
Variable rag_llm : list event -> str -> result str.
Variable vector_index : list event -> pyval -> Z -> result (list Document).

Local Abbreviation cnode := (classifier_node isspace toupper classifier_llm).
Local Abbreviation rnode := (rag_responder_node rag_llm vector_index).
Local Abbreviation norm := (normalize isspace toupper).
Local Abbreviation run_query :=
  (process_query isspace toupper classifier_llm rag_llm vector_index).

Lemma normalize_valid (raw : str) : ∃ cat, norm raw = value cat.
Proof.
  unfold normalize. cbv zeta. case_bool_decide as Hin.
  - by exists GENERAL.
  - by apply (proj1 (valid_categories_spec _)).
Qed.

(** The shape of a run, for case analysis. *)
Lemma process_query_cases (q : str) (g : globals) :
  (∃ e, classifier_llm (classify_history g) (CLASSIFIER_PROMPT q) = Raise e
        ∧ run_query q g
          = (Raise e, logged (EvClassify (CLASSIFIER_PROMPT q))
                        (logged (EvNode "classifier") (compiled g))))
  ∨ (∃ raw, classifier_llm (classify_history g) (CLASSIFIER_PROMPT q) = Ok raw
       ∧ norm raw = value ESCALATE
       ∧ fst (run_query q g)
         = Ok (result_record q (norm raw) ESCALATION_MESSAGE true))
  ∨ (∃ raw, classifier_llm (classify_history g) (CLASSIFIER_PROMPT q) = Ok raw
       ∧ norm raw ≠ value ESCALATE
       ∧ run_query q g
         = match get_rag_chain (invoke rag_llm vector_index (VStr q))
                   (logged (EvNode "rag_responder")
                      (logged (EvState (classified_state q (norm raw)))
                         (logged (EvClassify (CLASSIFIER_PROMPT q))
                            (logged (EvNode "classifier") (compiled g))))) with
           | (Ok answer, g4) =>
               (Ok (result_record q (norm raw) answer false),
                logged (EvState (result_record q (norm raw) answer false)) g4)
           | (Raise e, g4) => (Raise e, g4)
           end).
Proof.
  rewrite process_query_run. cbv zeta.
  change (trace (logged (EvNode "classifier") (compiled g)))
    with (classify_history g).
  destruct (classifier_llm _ _) as [raw|e]; [|left; eauto].
  right. destruct (decide (norm raw = value ESCALATE)) as [Hesc|Hesc].
  - left. exists raw. by rewrite (bool_decide_eq_true_2 _ Hesc).
  - right. exists raw. by rewrite (bool_decide_eq_false_2 _ Hesc).
Qed.

(** The record of a run that returns: the query, the normalized output of
    the classifier, an answer, and the flag computed from the category. *)
Lemma process_query_record (q : str) (g : globals) (r : AgentState)
    (g' : globals) :
  run_query q g = (Ok r, g') →
  ∃ raw answer,
    r = result_record q (norm raw) answer
          (bool_decide (norm raw = value ESCALATE)).
Proof.
  intros Hrun.
  destruct (process_query_cases q g)
    as [(e & _ & H) | [(raw & _ & Hesc & H) | (raw & _ & Hesc & H)]].
  - rewrite H in Hrun. discriminate.
  - rewrite Hrun in H. injection H as ->. exists raw, ESCALATION_MESSAGE.
    by rewrite (bool_decide_eq_true_2 _ Hesc).
  - rewrite H in Hrun. destruct (get_rag_chain _ _) as [[answer|e] g4];
      [|discriminate].
    injection Hrun as <- _. exists raw, answer.
    by rewrite (bool_decide_eq_false_2 _ Hesc).
Qed.

(** X9. A state without the key [input] makes both calling nodes raise
    [KeyError('input')] before anything else happens: no model is called,
    the RAG singleton is not created, the history is unchanged. *)
Theorem nodes_raise_KeyError_without_input (st : AgentState) (s : globals) :
  st !! "input" = None →
  cnode st s = (Raise (KeyError "input"), s)
  ∧ rnode st s = (Raise (KeyError "input"), s).
Proof.
  intros Hin. unfold classifier_node, rag_responder_node, getitem, bind.
  by rewrite Hin.
Qed.

(** X10. The category of every record [process_query] returns is the value
    of a member of [QueryCategory]: one of the four labels, never the raw
    text of the model. *)
Theorem category_is_an_enum_value (q : str) (g : globals) (r : AgentState)
    (g' : globals) :
  run_query q g = (Ok r, g') →
  ∃ cat, r !! "category" = Some (VStr (value cat)).
Proof.
  intros Hrun.
  destruct (process_query_cases q g)
    as [(e & _ & H) | [(raw & _ & _ & H) | (raw & _ & _ & H)]].
  - rewrite H in Hrun. discriminate.
  - rewrite Hrun in H. injection H as ->.
    destruct (normalize_valid raw) as [cat ->]. by exists cat.
  - rewrite H in Hrun. destruct (get_rag_chain _ _) as [[answer|e] g4];
      [|discriminate].
    injection Hrun as <- _.
    destruct (normalize_valid raw) as [cat ->]. by exists cat.
Qed.

(** X11. Every record [process_query] returns has exactly the four keys of
    the state schema, with a [str] under [input], [category] and [response]
    and a [bool] under [needs_escalation]; [input] is the query. *)
Theorem record_has_the_four_keys (q : str) (g : globals) (r : AgentState)
    (g' : globals) :
  run_query q g = (Ok r, g') →
  (∃ c answer b, r = result_record q c answer b)
  ∧ ∀ key, is_Some (r !! key)
           ↔ key ∈ ["input"; "category"; "response"; "needs_escalation"].
Proof.
  intros Hrun.
  assert (Hshape : ∃ c answer b, r = result_record q c answer b).
  { destruct (process_query_cases q g)
      as [(e & _ & H) | [(raw & _ & _ & H) | (raw & _ & _ & H)]].
    - rewrite H in Hrun. discriminate.
    - rewrite Hrun in H. injection H as ->. eauto.
    - rewrite H in Hrun. destruct (get_rag_chain _ _) as [[answer|e] g4];
        [|discriminate].
      injection Hrun as <- _. eauto. }
  split; [done|]. destruct Hshape as (c & answer & b & ->).
  intros key. unfold result_record. rewrite !lookup_insert, lookup_empty.
  rewrite !elem_of_cons, elem_of_nil.
  repeat case_decide; subst; split; intros Hkey;
    try (by eauto 10); try (by destruct Hkey as [? [=]]).
  by destruct Hkey as [?|[?|[?|[?|[]]]]].
Qed.

(** X12. Membership in the set of labels is exact: when the stripped,
    upper-cased output of the model is a label followed by anything more
    (a full stop, a second word), the category stored is "GENERAL", and for
    such an output of the run's classification call the run goes to the RAG
    responder, also when the label was "ESCALATE". *)
Theorem label_with_extra_text_is_general (q : str) (g : globals) (raw : str)
    (cat : QueryCategory) (extra : str) :
  extra ≠ [] →
  upper toupper (strip isspace raw) = value cat ++ extra →
  norm raw = value GENERAL
  ∧ (classifier_llm (classify_history g) (CLASSIFIER_PROMPT q) = Ok raw →
     ∃ tail,
       trace (snd (run_query q g))
       = classify_history g
         ++ EvClassify (CLASSIFIER_PROMPT q)
            :: EvState (classified_state q (value GENERAL))
            :: EvNode "rag_responder" :: tail).
Proof.
  intros Hextra Hlabel.
  assert (Hnorm : norm raw = value GENERAL).
  { apply normalize_spec. intros cat' Hcat'. rewrite Hlabel in Hcat'.
    by apply label_prefix_free in Hcat'. }
  split; [done|]. intros Hraw.
  destruct (process_query_cases q g)
    as [(e & He & _) | [(raw' & Hraw' & Hesc & _) | (raw' & Hraw' & _ & H)]].
  - congruence.
  - assert (raw' = raw) as -> by congruence. rewrite Hnorm in Hesc.
    vm_compute in Hesc. discriminate.
  - assert (raw' = raw) as -> by congruence. rewrite H, Hnorm.
    rewrite get_rag_chain_invoke_run. cbv zeta.
    destruct (vector_index _ _ _) as [docs|e];
      [destruct (rag_llm _ _) as [answer|e]|];
      eexists; simpl; unfold classify_history;
      rewrite <- !app_assoc; simpl; reflexivity.
Qed.

(** X13. Off the escalation path a run calls its collaborators in a fixed
    order and at most once each: the classification model, then the index
    with the original query text, then, only if the index answered, the
    generation model on the prompt built from the passages and the
    original query. *)
Theorem rag_path_calls (q : str) (g : globals) (raw : str) :
  classifier_llm (classify_history g) (CLASSIFIER_PROMPT q) = Ok raw →
  norm raw ≠ value ESCALATE →
  let k := chain_k (singleton g) in
  let h := respond_history g q (norm raw) in
  external_calls (trace (snd (run_query q g)))
  = external_calls (trace g)
    ++ EvClassify (CLASSIFIER_PROMPT q)
       :: EvRetrieve k (VStr q)
       :: match vector_index h (VStr q) k with
          | Raise _ => []
          | Ok docs => [EvGenerate (SYSTEM_PROMPT (_format_docs docs) q)]
          end.
Proof.
  intros Hraw Hesc k h.
  destruct (process_query_cases q g)
    as [(e & He & _) | [(raw' & Hraw' & Hesc' & _) | (raw' & Hraw' & _ & H)]].
  - congruence.
  - assert (raw' = raw) as -> by congruence. done.
  - assert (raw' = raw) as -> by congruence. rewrite H.
    rewrite get_rag_chain_invoke_run. cbv zeta.
    rewrite respond_history_trace, respond_singleton. fold k h.
    destruct (vector_index h (VStr q) k) as [docs|e];
      [destruct (rag_llm _ _) as [answer|e]|];
      simpl; unfold h, respond_history, classify_history;
      rewrite !external_calls_app; simpl;
      by rewrite ?app_nil_r, <- ?app_assoc.
Qed.


(** X15. Router and flag agree after the classifier, on any input state:
    when [classifier_node] returns, the router sends the returned state to
    the escalation node exactly when the [needs_escalation] it stored is
    [True]. *)
Theorem route_agrees_with_flag (st : AgentState) (s : globals)
    (st' : AgentState) (s' : globals) :
  cnode st s = (Ok st', s') →
  (route_after_classification st' = "escalation"
   ↔ st' !! "needs_escalation" = Some (VBool true)).
Proof.
  unfold classifier_node, getitem, bind.
  destruct (st !! "input") as [v|]; [|discriminate]. simpl.
  unfold classifier_chain_invoke.
  destruct (classifier_llm _ _) as [raw|e]; [|discriminate].
  intros [= <- _].
  erewrite route_classified
    by (rewrite lookup_insert_ne by done; apply lookup_insert_eq).
  rewrite lookup_insert_eq.
  change (lit "ESCALATE") with (value ESCALATE).
  by case_bool_decide.
Qed.

End MoreWorkflow.

(** ** The chat endpoint *)

Section ApiFacts.
Variable isspace : N -> bool.
Variable toupper : N -> list N.
Variable classifier_llm : list event -> str -> result str.
Variable rag_llm : list event -> str -> result str.
Variable vector_index : list event -> pyval -> Z -> result (list Document).
Variable str_exn : exn -> str.
Variable ChatResponse_init : pyval -> pyval -> pyval -> result Api.ChatResponse.

Local Abbreviation run_query :=
  (process_query isspace toupper classifier_llm rag_llm vector_index).
Local Abbreviation chat :=
  (Api.chat isspace toupper classifier_llm rag_llm vector_index str_exn
     ChatResponse_init).

(** X16. Without an API key (unset or empty) the endpoint answers 500
    "Google API key not configured." at once: the workflow is not compiled,
    no node runs, no model is called. *)
Theorem chat_without_api_key (key : option str) (query : str) (g : globals) :
  Api.not_set key = true →
  chat key query g
  = (Api.RaiseHTTP {| Api.status_code := 500;
                      Api.detail := lit "Google API key not configured." |},
     g).
Proof. intros Hkey. unfold Api.chat. by rewrite Hkey. Qed.

(** X17. When [process_query] returns a record, the endpoint returns a
    [ChatResponse] whose three fields are the record's [response],
    [category] and [needs_escalation]; its category is one of the four
    labels and its flag is set exactly for "ESCALATE". *)
Theorem chat_returns_the_record (key : option str) (query : str)
    (g : globals) (record : AgentState) (g' : globals) :
  Api.accepts_typed_fields ChatResponse_init →
  Api.not_set key = false →
  run_query query g = (Ok record, g') →
  ∃ body,
    chat key query g = (Api.Return body, g')
    ∧ record !! "response" = Some (VStr (Api.response body))
    ∧ record !! "category" = Some (VStr (Api.category body))
    ∧ record !! "needs_escalation" = Some (VBool (Api.needs_escalation body))
    ∧ (∃ cat, Api.category body = value cat)
    ∧ (Api.needs_escalation body = true ↔ Api.category body = value ESCALATE).
Proof.
  intros Htyped Hkey Hrun.
  destruct (process_query_record _ _ _ _ _ _ _ _ _ Hrun)
    as (raw & answer & ->).
  eexists. unfold Api.chat. rewrite Hkey, Hrun. unfold Api.build_response.
  change (result_record query ?c answer ?b !! "response") with (Some (VStr answer)).
  change (result_record query ?c answer ?b !! "category") with (Some (VStr c)).
  change (result_record query ?c answer ?b !! "needs_escalation")
    with (Some (VBool b)).
  cbv beta iota. rewrite (Htyped _ _ _). split; [reflexivity|].
  cbn [Api.response Api.category Api.needs_escalation].
  split_and!; try done.
  - apply normalize_valid.
  - apply bool_decide_eq_true.
Qed.

(** X18. When [process_query] raises [e], the endpoint answers 500 with the
    detail "An error occurred: " followed by [str(e)]: the text of the
    internal exception is sent to the client. *)
Theorem chat_forwards_exception_text (key : option str) (query : str)
    (g : globals) (e : exn) :
  Api.not_set key = false →
  fst (run_query query g) = Raise e →
  fst (chat key query g)
  = Api.RaiseHTTP {| Api.status_code := 500;
                     Api.detail := lit "An error occurred: " ++ str_exn e |}.
Proof.
  intros Hkey Hrun. unfold Api.chat. rewrite Hkey.
  destruct (run_query query g) as [[record|e'] g']; simpl in Hrun; [done|].
  by injection Hrun as ->.
Qed.

End ApiFacts.

(** ** The further statements at concrete inputs *)

(** X1 on the three stored passages, split after the first. *)
Lemma format_docs_app_witness :
  firstn 1 Demo.passages ≠ [] ∧ skipn 1 Demo.passages ≠ []
  ∧ _format_docs (firstn 1 Demo.passages ++ skipn 1 Demo.passages)
    = _format_docs (firstn 1 Demo.passages) ++ DOC_SEPARATOR
      ++ _format_docs (skipn 1 Demo.passages).
Proof.
  assert (H1 : firstn 1 Demo.passages ≠ []) by discriminate.
  assert (H2 : skipn 1 Demo.passages ≠ []) by discriminate.
  split; [exact H1|]. split; [exact H2|].
  exact (format_docs_app _ _ H1 H2).
Defined.

(** X4 on an object that has answered a query. *)
Lemma methods_keep_caches_coherent_witness :
  coherent MoreDemo.served = true
  ∧ coherent (fst (snd (retrieve_context (Demo.index_of Demo.passages)
                          (VStr Demo.price_query) 1
                          (MoreDemo.served, [])))) = true.
Proof.
  assert (Hco : coherent MoreDemo.served = true) by (vm_compute; reflexivity).
  split; [exact Hco|].
  destruct (methods_keep_caches_coherent Demo.model_down
              (Demo.index_of Demo.passages) MoreDemo.served []
              (VStr Demo.price_query) 1 Hco)
    as (_ & _ & _ & _ & _ & _ & Hretrieve).
  exact Hretrieve.
Defined.

(** X5 on an object that has answered a query. *)
Lemma retrieve_context_uses_chain_k_witness :
  coherent MoreDemo.served = true
  ∧ is_Some (_chain MoreDemo.served)
  ∧ fst (retrieve_context (Demo.index_of Demo.passages)
           (VStr Demo.price_query) 1 (MoreDemo.served, []))
    = Demo.index_of Demo.passages [] (VStr Demo.price_query)
        (chain_k MoreDemo.served).
Proof.
  assert (Hco : coherent MoreDemo.served = true) by (vm_compute; reflexivity).
  assert (Hchain : is_Some (_chain MoreDemo.served))
    by (exists 4%Z; vm_compute; reflexivity).
  split; [exact Hco|]. split; [exact Hchain|].
  exact (f_equal fst
           (retrieve_context_uses_chain_k (Demo.index_of Demo.passages)
              MoreDemo.served [] (VStr Demo.price_query) 1 Hco Hchain)).
Defined.

(** X6 on a new object: a retrieval with [k = 1], then an answer. *)
Lemma retrieve_context_sets_k_of_invoke_witness :
  _retriever (fst Demo.new_chain) = None
  ∧ _chain (fst Demo.new_chain) = None
  ∧ snd (snd (retrieve_context (Demo.index_of Demo.passages)
                (VStr Demo.price_query) 1 Demo.new_chain))
    = [] ++ [EvRetrieve 1 (VStr Demo.price_query)].
Proof.
  split; [reflexivity|]. split; [reflexivity|].
  exact (proj1 (retrieve_context_sets_k_of_invoke
                  (Demo.generator_says Demo.generated_answer)
                  (Demo.index_of Demo.passages) (fst Demo.new_chain) []
                  (VStr Demo.price_query) (VStr Demo.manager_query) 1
                  eq_refl eq_refl)).
Defined.

(** X7 on a new object over an index that is down. *)
Lemma invoke_retrieval_failure_witness :
  MoreDemo.index_down [] (VStr Demo.price_query) (chain_k (fst Demo.new_chain))
  = Raise (ExternalError (lit "chroma: collection not found"))
  ∧ _chain (with_chain (fst Demo.new_chain))
    = Some (chain_k (fst Demo.new_chain)).
Proof.
  split; [reflexivity|].
  exact (proj2 (invoke_retrieval_failure
                  (Demo.generator_says Demo.generated_answer)
                  MoreDemo.index_down (fst Demo.new_chain) []
                  (VStr Demo.price_query) _ eq_refl)).
Defined.

(** X9 on the empty dict. *)
Lemma nodes_raise_KeyError_without_input_witness :
  (∅ : AgentState) !! "input" = None
  ∧ classifier_node ascii_isspace ascii_toupper
      (Demo.classifier_says Demo.escalate_answer) ∅ Demo.fresh
    = (Raise (KeyError "input"), Demo.fresh).
Proof.
  split; [reflexivity|].
  exact (proj1 (nodes_raise_KeyError_without_input ascii_isspace ascii_toupper
                  (Demo.classifier_says Demo.escalate_answer) Demo.model_down
                  (Demo.index_of Demo.passages) ∅ Demo.fresh eq_refl)).
Defined.

(** X10 on the run of the price query. *)
Lemma category_is_an_enum_value_witness :
  Demo.run Demo.products_answer (Demo.generator_says Demo.generated_answer)
    Demo.passages Demo.price_query Demo.fresh
  = (Ok Demo.answered_record, Demo.answered_globals)
  ∧ ∃ cat, Demo.answered_record !! "category" = Some (VStr (value cat)).
Proof.
  assert (Hrun : Demo.run Demo.products_answer
                   (Demo.generator_says Demo.generated_answer)
                   Demo.passages Demo.price_query Demo.fresh
                 = (Ok Demo.answered_record, Demo.answered_globals))
    by (vm_compute; reflexivity).
  split; [exact Hrun|].
  exact (category_is_an_enum_value _ _ _ _ _ _ _ _ _ Hrun).
Defined.

(** X11 on the run of the manager query. *)
Lemma record_has_the_four_keys_witness :
  Demo.run Demo.escalate_answer Demo.model_down Demo.passages
    Demo.manager_query Demo.fresh
  = (Ok Demo.escalated_record, Demo.escalated_globals)
  ∧ ∃ c answer b,
      Demo.escalated_record = result_record Demo.manager_query c answer b.
Proof.
  assert (Hrun : Demo.run Demo.escalate_answer Demo.model_down Demo.passages
                   Demo.manager_query Demo.fresh
                 = (Ok Demo.escalated_record, Demo.escalated_globals))
    by (vm_compute; reflexivity).
  split; [exact Hrun|].
  exact (proj1 (record_has_the_four_keys _ _ _ _ _ _ _ _ _ Hrun)).
Defined.

(** X12 on the answer "escalate.": the complaint is classified GENERAL. *)
Lemma label_with_extra_text_is_general_witness :
  lit "." ≠ []
  ∧ upper ascii_toupper (strip ascii_isspace MoreDemo.escalate_dot_answer)
    = value ESCALATE ++ lit "."
  ∧ normalize ascii_isspace ascii_toupper MoreDemo.escalate_dot_answer
    = value GENERAL.
Proof.
  assert (Hextra : lit "." ≠ []) by discriminate.
  assert (Hlabel : upper ascii_toupper
                     (strip ascii_isspace MoreDemo.escalate_dot_answer)
                   = value ESCALATE ++ lit ".") by (vm_compute; reflexivity).
  split; [exact Hextra|]. split; [exact Hlabel|].
  exact (proj1 (label_with_extra_text_is_general ascii_isspace ascii_toupper
                  (Demo.classifier_says MoreDemo.escalate_dot_answer)
                  Demo.model_down (Demo.index_of Demo.passages)
                  Demo.manager_query Demo.fresh MoreDemo.escalate_dot_answer
                  ESCALATE (lit ".") Hextra Hlabel)).
Defined.

(** X13 on the run of the price query. *)
Lemma rag_path_calls_witness :
  Demo.classifier_says Demo.products_answer
    (classify_history Demo.fresh) (CLASSIFIER_PROMPT Demo.price_query)
  = Ok Demo.products_answer
  ∧ normalize ascii_isspace ascii_toupper Demo.products_answer ≠ value ESCALATE
  ∧ external_calls
      (trace (snd (Demo.run Demo.products_answer
                     (Demo.generator_says Demo.generated_answer)
                     Demo.passages Demo.price_query Demo.fresh)))
    = [EvClassify (CLASSIFIER_PROMPT Demo.price_query);
       EvRetrieve 4 (VStr Demo.price_query);
       EvGenerate (SYSTEM_PROMPT (_format_docs Demo.passages) Demo.price_query)].
Proof.
  assert (Hne : normalize ascii_isspace ascii_toupper Demo.products_answer
                ≠ value ESCALATE) by (vm_compute; discriminate).
  split; [reflexivity|]. split; [exact Hne|].
  exact (rag_path_calls ascii_isspace ascii_toupper
           (Demo.classifier_says Demo.products_answer)
           (Demo.generator_says Demo.generated_answer)
           (Demo.index_of Demo.passages) Demo.price_query Demo.fresh
           Demo.products_answer eq_refl Hne).
Defined.


(** X15 on the classifier run on the initial state of the manager query. *)
Lemma route_agrees_with_flag_witness :
  classifier_node ascii_isspace ascii_toupper
    (Demo.classifier_says Demo.escalate_answer)
    (initial_state Demo.manager_query) Demo.fresh
  = (Ok MoreDemo.classified, MoreDemo.classified_globals)
  ∧ (route_after_classification MoreDemo.classified = "escalation"
     ↔ MoreDemo.classified !! "needs_escalation" = Some (VBool true)).
Proof.
  assert (Hrun : classifier_node ascii_isspace ascii_toupper
                   (Demo.classifier_says Demo.escalate_answer)
                   (initial_state Demo.manager_query) Demo.fresh
                 = (Ok MoreDemo.classified, MoreDemo.classified_globals))
    by (vm_compute; reflexivity).
  split; [exact Hrun|].
  exact (route_agrees_with_flag _ _ _ _ _ _ _ Hrun).
Defined.

(** X16 with the variable unset. *)
Lemma chat_without_api_key_witness :
  Api.not_set None = true
  ∧ ApiDemo.chat None Demo.products_answer
      (Demo.generator_says Demo.generated_answer) Demo.passages
      Demo.price_query Demo.fresh
    = (Api.RaiseHTTP {| Api.status_code := 500;
                        Api.detail := lit "Google API key not configured." |},
       Demo.fresh).
Proof.
  split; [reflexivity|].
  exact (chat_without_api_key ascii_isspace ascii_toupper
           (Demo.classifier_says Demo.products_answer)
           (Demo.generator_says Demo.generated_answer)
           (Demo.index_of Demo.passages) ApiDemo.message
           ApiDemo.ChatResponse_typed None Demo.price_query Demo.fresh eq_refl).
Defined.

(** X17 on the run of the price query. *)
Lemma chat_returns_the_record_witness :
  Api.accepts_typed_fields ApiDemo.ChatResponse_typed
  ∧ Api.not_set ApiDemo.api_key = false
  ∧ Demo.run Demo.products_answer (Demo.generator_says Demo.generated_answer)
      Demo.passages Demo.price_query Demo.fresh
    = (Ok Demo.answered_record, Demo.answered_globals)
  ∧ ∃ body,
      ApiDemo.chat ApiDemo.api_key Demo.products_answer
        (Demo.generator_says Demo.generated_answer) Demo.passages
        Demo.price_query Demo.fresh
      = (Api.Return body, Demo.answered_globals)
      ∧ Demo.answered_record !! "response" = Some (VStr (Api.response body))
      ∧ Demo.answered_record !! "category" = Some (VStr (Api.category body))
      ∧ Demo.answered_record !! "needs_escalation"
        = Some (VBool (Api.needs_escalation body))
      ∧ (∃ cat, Api.category body = value cat)
      ∧ (Api.needs_escalation body = true
         ↔ Api.category body = value ESCALATE).
Proof.
  assert (Htyped : Api.accepts_typed_fields ApiDemo.ChatResponse_typed)
    by (intros r c b; reflexivity).
  assert (Hrun : Demo.run Demo.products_answer
                   (Demo.generator_says Demo.generated_answer)
                   Demo.passages Demo.price_query Demo.fresh
                 = (Ok Demo.answered_record, Demo.answered_globals))
    by (vm_compute; reflexivity).
  split; [exact Htyped|]. split; [reflexivity|]. split; [exact Hrun|].
  exact (chat_returns_the_record ascii_isspace ascii_toupper
           (Demo.classifier_says Demo.products_answer)
           (Demo.generator_says Demo.generated_answer)
           (Demo.index_of Demo.passages) ApiDemo.message
           ApiDemo.ChatResponse_typed ApiDemo.api_key Demo.price_query
           Demo.fresh _ _ Htyped eq_refl Hrun).
Defined.

(** X18 on the run of the price query with the generation model down. *)
Lemma chat_forwards_exception_text_witness :
  Api.not_set ApiDemo.api_key = false
  ∧ fst (Demo.run Demo.products_answer Demo.model_down Demo.passages
           Demo.price_query Demo.fresh)
    = Raise (ExternalError (lit "503 Service Unavailable"))
  ∧ fst (ApiDemo.chat ApiDemo.api_key Demo.products_answer Demo.model_down
           Demo.passages Demo.price_query Demo.fresh)
    = Api.RaiseHTTP
        {| Api.status_code := 500;
           Api.detail := lit "An error occurred: "
                         ++ lit "503 Service Unavailable" |}.
Proof.
  assert (Hrun : fst (Demo.run Demo.products_answer Demo.model_down
                        Demo.passages Demo.price_query Demo.fresh)
                 = Raise (ExternalError (lit "503 Service Unavailable")))
    by (vm_compute; reflexivity).
  split; [reflexivity|]. split; [exact Hrun|].
  exact (chat_forwards_exception_text ascii_isspace ascii_toupper
           (Demo.classifier_says Demo.products_answer) Demo.model_down
           (Demo.index_of Demo.passages) ApiDemo.message
           ApiDemo.ChatResponse_typed ApiDemo.api_key Demo.price_query
           Demo.fresh _ eq_refl Hrun).
Defined.

(** X19 on the run of the price query. *)
Lemma process_query_returns_witness :
  normalize ascii_isspace ascii_toupper Demo.products_answer ≠ value ESCALATE
  ∧ fst (Demo.run Demo.products_answer
           (Demo.generator_says Demo.generated_answer)
           Demo.passages Demo.price_query Demo.fresh)
    = Ok (result_record Demo.price_query
            (normalize ascii_isspace ascii_toupper Demo.products_answer)
            Demo.generated_answer false).
Proof.
  assert (Hne : normalize ascii_isspace ascii_toupper Demo.products_answer
                ≠ value ESCALATE) by (vm_compute; discriminate).
  split; [exact Hne|].
  apply (process_query_returns ascii_isspace ascii_toupper
           (Demo.classifier_says Demo.products_answer)
           (Demo.generator_says Demo.generated_answer)
           (Demo.index_of Demo.passages) Demo.price_query Demo.fresh
           Demo.products_answer Demo.passages Demo.generated_answer
           eq_refl Hne).
  - vm_compute. reflexivity.
  - reflexivity.
Defined.
